(** * FinTrack Pro: the data-access and reporting layer of [newcode.py]

    A shallow embedding of the operations of the finance manager
    (categories, expenses, budgets, subscriptions over an SQLite store) and
    the properties of its report and update functions.

    Modelling conventions.
    - A table is the list of its rows in rowid order; a fresh row receives
      the id [1 + max id] (SQLite's INTEGER PRIMARY KEY) and goes last.
    - [Store] is the committed content of the database.  A commit takes a
      boolean saying whether the engine accepted the write; on [false]
      the commit raises [SQLAlchemyError].
    - Amounts are Python floats in the program.  The stored amounts and
      their sums are modelled as exact rationals ([Q]); the statements
      over [Q] are those that rounding cannot change (which rows are
      stored, listed or excluded, and orders by date and id).  The figures
      of the budget report, where rounding decides the band, are modelled
      on IEEE binary64 ([Doubles], primitive floats).
    - A calendar date is modelled by its proleptic Gregorian ordinal
      ([date.toordinal()], 1 = 0001-01-01); comparing dates is comparing
      ordinals, [d + timedelta(days=n)] is [d + n], [(a - b).days] is
      [a - b].  Python's [date] covers the years 1 to 9999 and a
      [timedelta] at most 999999999 days: [Calendar.date_add] is the
      addition that raises [OverflowError] outside them.
    - Integers bound into SQL statements are 64-bit in SQLite; the
      statements about ids and limits given by the caller carry
      [fits_int64].
    - Text is modelled by [string] over the code points 0 to 255.
    - Printed lines are modelled by structured values ([message]s and
      returned rows), not by their formatted text. *)

From Stdlib Require Import ZArith QArith Lqa Lia List Bool String Ascii.
From Stdlib Require Import Sorted Permutation.
From Stdlib Require Floats.
Import ListNotations.

Set Implicit Arguments.

(** ** Text: [str.strip()] and [str.lower()] *)

Module Text.

Local Open Scope N_scope.

(** [str.isspace] on the code points below 256: TAB..CR, FS..US, space,
    NEL (0x85) and NBSP (0xA0). *)
Definition isspace (c : ascii) : bool :=
  let n := N_of_ascii c in
  ((9 <=? n) && (n <=? 13)) || ((28 <=? n) && (n <=? 32))
  || (n =? 133) || (n =? 160).

(** [str.lower] on one code point below 256: A..Z and the Latin-1 capitals
    0xC0..0xDE (except the multiplication sign 0xD7) move up by 32. *)
Definition lower_char (c : ascii) : ascii :=
  let n := N_of_ascii c in
  if ((65 <=? n) && (n <=? 90))
     || ((192 <=? n) && (n <=? 222) && negb (n =? 215))
  then ascii_of_N (n + 32) else c.

Fixpoint lower (s : string) : string :=
  match s with
  | EmptyString => EmptyString
  | String c s' => String (lower_char c) (lower s')
  end.

Fixpoint lstrip (s : string) : string :=
  match s with
  | EmptyString => EmptyString
  | String c s' => if isspace c then lstrip s' else s
  end.

Fixpoint rstrip (s : string) : string :=
  match s with
  | EmptyString => EmptyString
  | String c s' =>
      match rstrip s' with
      | EmptyString => if isspace c then EmptyString else String c EmptyString
      | r => String c r
      end
  end.

Definition strip (s : string) : string := rstrip (lstrip s).

(** A string made of whitespace only (the empty string included). *)
Fixpoint blank (s : string) : bool :=
  match s with
  | EmptyString => true
  | String c s' => isspace c && blank s'
  end.

(** [name.strip().lower()], line 60. *)
Definition normalize (name : string) : string := lower (strip name).

(** A capital letter with a small letter of its own 32 code points up:
    A..Z, and 0xC0..0xDE except the multiplication sign 0xD7. *)
Definition is_capital (c : ascii) : bool :=
  let n := N_of_ascii c in
  ((65 <=? n) && (n <=? 90)) || ((192 <=? n) && (n <=? 222) && negb (n =? 215)).

Definition small_of (c : ascii) : ascii := ascii_of_N (N_of_ascii c + 32).

(** The same character, or a capital and its small letter. *)
Definition same_letter (c1 c2 : ascii) : bool :=
  Ascii.eqb c1 c2
  || (is_capital c1 && Ascii.eqb c2 (small_of c1))
  || (is_capital c2 && Ascii.eqb c1 (small_of c2)).

(** Two texts of one length that agree position by position up to the
    case of such letters. *)
Fixpoint case_variant (s1 s2 : string) : bool :=
  match s1, s2 with
  | EmptyString, EmptyString => true
  | String c1 s1', String c2 s2' => same_letter c1 c2 && case_variant s1' s2'
  | _, _ => false
  end.

(** Two raw names that differ only in the case of letters that have a
    one-character case pair, or in surrounding whitespace: each is a core
    padded with whitespace on both sides, and the cores are case
    variants. *)
Inductive padded_case_variants : string -> string -> Prop :=
| padded_intro pre1 core1 post1 pre2 core2 post2 :
    blank pre1 = true -> blank post1 = true ->
    blank pre2 = true -> blank post2 = true ->
    case_variant core1 core2 = true ->
    padded_case_variants (pre1 ++ core1 ++ post1) (pre2 ++ core2 ++ post2).

(** [str.upper] on one code point below 256: a..z and 0xE0..0xFE (except
    the division sign 0xF7) move down by 32 and the sharp s 0xDF becomes
    "SS"; [None] for the micro sign 0xB5 and for 0xFF, whose capitals lie
    above 255. *)
Definition upper_char (c : ascii) : option string :=
  let n := N_of_ascii c in
  if (n =? 181) || (n =? 255) then None
  else if n =? 223 then Some "SS"%string
  else if ((97 <=? n) && (n <=? 122))
          || ((224 <=? n) && (n <=? 254) && negb (n =? 247))
       then Some (String (ascii_of_N (n - 32)) EmptyString)
       else Some (String c EmptyString).

Fixpoint upper (s : string) : option string :=
  match s with
  | EmptyString => Some EmptyString
  | String c s' =>
      match upper_char c, upper s' with
      | Some u, Some r => Some (u ++ r)%string
      | _, _ => None
      end
  end.

(** "strasse" written with the sharp s (code point 0xDF). *)
Definition strasse_sharp_s : string :=
  String "s" (String "t" (String "r" (String "a"
    (String (ascii_of_N 223) (String "e" EmptyString))))).

End Text.

(** ** Calendar *)

Module Calendar.

Local Open Scope Z_scope.

(** A date, as its proleptic Gregorian ordinal. *)
Definition date := Z.

Definition days_before_month (m : Z) : Z :=
  nth (Z.to_nat m) [-1; 0; 31; 59; 90; 120; 151; 181; 212; 243; 273; 304; 334] 0.

Definition days_in_month (m : Z) : Z :=
  nth (Z.to_nat m) [-1; 31; 28; 31; 30; 31; 30; 31; 31; 30; 31; 30; 31] 0.

Definition b2z (b : bool) : Z := if b then 1 else 0.

(** Year, month and day of an ordinal ([datetime._ord2ymd]). *)
Definition ord2ymd (ordinal : Z) : Z * Z * Z :=
  let n := ordinal - 1 in
  let n400 := n / 146097 in
  let n := n mod 146097 in
  let year := n400 * 400 + 1 in
  let n100 := n / 36524 in
  let n := n mod 36524 in
  let n4 := n / 1461 in
  let n := n mod 1461 in
  let n1 := n / 365 in
  let n := n mod 365 in
  let year := year + n100 * 100 + n4 * 4 + n1 in
  if (n1 =? 4) || (n100 =? 4) then (year - 1, 12, 31)
  else
    let leapyear := (n1 =? 3) && (negb (n4 =? 24) || (n100 =? 3)) in
    let month := Z.shiftr (n + 50) 5 in
    let preceding := days_before_month month + b2z ((2 <? month) && leapyear) in
    if n <? preceding then
      let month := month - 1 in
      let preceding :=
        preceding - (days_in_month month + b2z ((month =? 2) && leapyear)) in
      (year, month, n - preceding + 1)
    else (year, month, n - preceding + 1).

Definition digit (n : Z) : ascii := ascii_of_N (48 + Z.to_N (n mod 10)).

(** [strftime('%Y-%m', d)]: four digits of year, a dash, two of month. *)
Definition strftime_Ym (d : date) : string :=
  let '(y, m, _) := ord2ymd d in
  String (digit (y / 1000)) (String (digit (y / 100)) (String (digit (y / 10))
    (String (digit y) (String "-"%char
      (String (digit (m / 10)) (String (digit m) EmptyString)))))).

(** The ordinals that a [date] can hold: 0001-01-01 to 9999-12-31. *)
Definition date_in_range (d : Z) : bool := (1 <=? d) && (d <=? 3652059).

(** [d + timedelta(days=days)]: [None] stands for the OverflowError that
    Python raises when the day count does not fit a timedelta (more than
    999999999 in absolute value) or the sum is not a date. *)
Definition date_add (d : date) (days : Z) : option date :=
  if (Z.abs days <=? 999999999) && date_in_range (d + days)
  then Some (d + days) else None.

(** [get_current_month()], lines 68-69, with the clock's date as input. *)
Definition get_current_month (today : date) : string := strftime_Ym today.

End Calendar.

(** ** The SQL fragments used by the queries *)

Module Sql.

Section OrderBy.

Variable A : Type.

(** [leb x y]: row [x] may come before row [y] under the ORDER BY key. *)
Variable leb : A -> A -> bool.

Fixpoint insert_row (x : A) (l : list A) : list A :=
  match l with
  | [] => [x]
  | y :: l' => if leb x y then x :: l else y :: insert_row x l'
  end.

(** ORDER BY as a stable sort of the scanned rows: rows that the key does
    not separate stay in scan (rowid) order, which is what SQLite's sorter
    yields; SQL itself leaves their order open. *)
Fixpoint order_by (l : list A) : list A :=
  match l with
  | [] => []
  | x :: l' => insert_row x (order_by l')
  end.

(** [x] may come before [y]. *)
Definition before (x y : A) : Prop := leb x y = true.

(** LIMIT n: the first [n] rows; a negative [n] means no upper bound
    (SQLite). *)
Definition limit (n : Z) (l : list A) : list A :=
  if (n <? 0)%Z then l else firstn (Z.to_nat n) l.

End OrderBy.

(** COALESCE(SUM(x), 0). *)
Definition sum (l : list Q) : Q := fold_right Qplus 0 l.

(** GROUP BY on one text column: the distinct keys. *)
Definition group_keys (l : list string) : list string := nodup string_dec l.

(** A fresh INTEGER PRIMARY KEY: one more than the largest in the table. *)
Definition next_id (ids : list Z) : Z := (1 + fold_right Z.max 0 ids)%Z.

End Sql.

(** Python's comparisons on amounts. *)
Definition Qltb (x y : Q) : bool := negb (Qle_bool y x).

(** ** The four tables (lines 21-47) *)

Module Category.
Record t := mk { id : Z; name : string }.
End Category.

Module Expense.
Record t := mk {
  id : Z;
  title : string;
  amount : Q;
  date : Calendar.date;
  category_id : Z
}.
End Expense.

Module Budget.
Record t := mk { id : Z; month : string; limit : Q }.
Definition with_limit (l : Q) (b : t) : t :=
  {| id := id b; month := month b; limit := l |}.
End Budget.

Module Subscription.
Record t := mk {
  id : Z;
  name : string;
  amount : Q;
  next_date : Calendar.date
}.
End Subscription.

Record Store := {
  categories : list Category.t;
  expenses : list Expense.t;
  budgets : list Budget.t;
  subscriptions : list Subscription.t
}.

(** The database right after [Base.metadata.create_all] on a new file. *)
Definition empty_store : Store :=
  {| categories := []; expenses := []; budgets := []; subscriptions := [] |}.

(** ** Sessions, commits and exceptions *)

Inductive exn := SQLAlchemyError | AttributeError | OverflowError.

Inductive result (A : Type) :=
| Ok (a : A)
| Raise (e : exn).

Arguments Ok {A} a.
Arguments Raise {A} e.

(** An open session: the committed database and the session's own view of
    it, which also holds the rows added or changed since the last commit. *)
Record Session := { db : Store; view : Store }.

Definition M (A : Type) : Type := Session -> result A * Session.

Definition ret {A} (a : A) : M A := fun s => (Ok a, s).

Definition bind {A B} (m : M A) (k : A -> M B) : M B :=
  fun s =>
    match m s with
    | (Ok a, s') => k a s'
    | (Raise e, s') => (Raise e, s')
    end.

Notation "x <- m ;; k" := (bind m (fun x => k))
  (at level 61, m at next level, right associativity).
Notation "m ;;; k" := (bind m (fun _ => k))
  (at level 61, right associativity).

Definition raise {A} (e : exn) : M A := fun s => (Raise e, s).

(** [Session()]. *)
Definition open_session (store : Store) : Session :=
  {| db := store; view := store |}.

(** [session.commit()]: [ok] tells whether the engine accepts the write. *)
Definition commit (ok : bool) : M unit :=
  fun s =>
    if ok then (Ok tt, {| db := view s; view := view s |})
    else (Raise SQLAlchemyError, s).

(** [session.rollback()]. *)
Definition rollback : M unit :=
  fun s => (Ok tt, {| db := db s; view := db s |}).

(** [session.close()]: what is left is the committed database. *)
Definition close_session (s : Session) : Store := db s.

(** [try: body  except SQLAlchemyError: handler]. *)
Definition try_except {A} (body handler : M A) : M A :=
  fun s =>
    match body s with
    | (Raise SQLAlchemyError, s') => handler s'
    | r => r
    end.

(** [session = Session(); try: body  finally: session.close()]. *)
Definition run_session {A} (store : Store) (body : M A) : result A * Store :=
  let (r, s) := body (open_session store) in (r, close_session s).

(** Reading and changing the session's view. *)
Definition query {A} (f : Store -> A) : M A := fun s => (Ok (f (view s)), s).

Definition update (f : Store -> Store) : M unit :=
  fun s => (Ok tt, {| db := db s; view := f (view s) |}).

(** ** What the program prints *)

(** The colour names that [color] knows (lines 79-84). *)
Inductive color_name := red | green | yellow | cyan.

Inductive message :=
| Added (title : string) (amount : Q) (category : string) (d : Calendar.date)
    (* "Added: <title> <amount> (<category>) on <d>", line 99 *)
| Error
    (* "Error: <e>", lines 102, 119, 248 and 266 *)
| NotFound (expense_id : Z)
    (* "Expense #<id> not found.", line 111 *)
| Deleted (title : string) (amount : Q) (category : string)
    (* "Deleted: <title> <amount> (<category>)", line 116 *)
| BudgetSet (month : string) (limit : Q)
    (* "Budget set for <month>: <limit>", line 245 *)
| InvalidDate
    (* "Invalid date. Use YYYY-MM-DD", line 255 *)
| SubscriptionAdded (name : string) (amount : Q) (d : Calendar.date)
    (* "Subscription added: <name> <amount> due on <d>", line 263 *)
| InvalidStartDate
    (* "Invalid start date format (use YYYY-MM-DD)", line 152 *)
| InvalidEndDate
    (* "Invalid end date format (use YYYY-MM-DD)", line 159 *)
| TitleRequired
    (* "Title is required.", line 332 *)
| InvalidAmount
    (* "Enter a valid positive amount.", line 339 *)
| CategoryRequired
    (* "Category is required.", line 343 *)
| InvalidNumber
    (* "Please enter a valid number.", line 353 *)
| InvalidPositiveNumber
    (* "Enter a valid positive number.", line 377 *)
| NameRequired
    (* "Name required.", line 382 *)
| InvalidSubscriptionAmount.
    (* "Invalid amount.", line 389 *)

(** The report of [budget_status]. *)
Inductive budget_report :=
| NoBudget (month : string)
| Status (month : string) (limit spent percent : Q)
    (status_text : string) (status_color : color_name).

(** The text in brackets after a subscription's due date (line 289). *)
Inductive due_phrase :=
| InDays (n : Z)
| TodayBang
| DaysOverdue (n : Z).

Record upcoming_row := {
  subscription : Subscription.t;
  days_left : Z;
  days_text : due_phrase;
  color_code : color_name
}.

(** ** Helper functions (lines 59-77) *)

Local Open Scope string_scope.
Local Open Scope Z_scope.

Definition insert_category (c : Category.t) (st : Store) : Store :=
  {| categories := categories st ++ [c]; expenses := expenses st;
     budgets := budgets st; subscriptions := subscriptions st |}.

Definition insert_expense (e : Expense.t) (st : Store) : Store :=
  {| categories := categories st; expenses := expenses st ++ [e];
     budgets := budgets st; subscriptions := subscriptions st |}.

Definition remove_expense (e : Expense.t) (st : Store) : Store :=
  {| categories := categories st;
     expenses := filter (fun x => negb (Expense.id x =? Expense.id e)) (expenses st);
     budgets := budgets st; subscriptions := subscriptions st |}.

Definition insert_budget (b : Budget.t) (st : Store) : Store :=
  {| categories := categories st; expenses := expenses st;
     budgets := budgets st ++ [b]; subscriptions := subscriptions st |}.

(** UPDATE budgets SET limit = ? WHERE id = ?. *)
Definition update_budget_limit (b : Budget.t) (l : Q) (st : Store) : Store :=
  {| categories := categories st; expenses := expenses st;
     budgets := map (fun x => if Budget.id x =? Budget.id b
                              then Budget.with_limit l x else x) (budgets st);
     subscriptions := subscriptions st |}.

Definition insert_subscription (x : Subscription.t) (st : Store) : Store :=
  {| categories := categories st; expenses := expenses st;
     budgets := budgets st; subscriptions := subscriptions st ++ [x] |}.

(** [session.query(Category).filter_by(name=name).first()]. *)
Definition category_by_name (name : string) (st : Store) : option Category.t :=
  find (fun c => (Category.name c =? name)%string) (categories st).

(** [cat = Category(name=name); session.add(cat)]; the id is the one the
    flush will assign. *)
Definition add_category (name : string) : M Category.t :=
  fun s =>
    let cat := Category.mk (Sql.next_id (map Category.id (categories (view s)))) name in
    (Ok cat, {| db := db s; view := insert_category cat (view s) |}).

(** Lines 59-66. *)
Definition get_or_create_category (ok : bool) (name : string) : M Category.t :=
  let name := Text.normalize name in
  cat <- query (category_by_name name) ;;
  match cat with
  | Some cat => ret cat
  | None =>
      cat <- add_category name ;;
      commit ok ;;;
      ret cat
  end.

Section Operations.

(** [datetime.strptime(s, "%Y-%m-%d").date()]; [None] stands for the
    ValueError of an unparsable text. *)
Variable strptime : string -> option Calendar.date.

(** [float(s)] and [int(s)] of the menu; [None] stands for ValueError. *)
Variable float_of_string : string -> option Q.
Variable int_of_string : string -> option Z.

(** Lines 71-77. *)
Definition parse_date (date_str : string) : option Calendar.date :=
  if (date_str =? "")%string then None else strptime date_str.

(** ** Core functions (lines 90-294) *)

Definition add_expense_row (title : string) (amount : Q) (d : Calendar.date)
    (category_id : Z) : M unit :=
  fun s =>
    let e := Expense.mk (Sql.next_id (map Expense.id (expenses (view s))))
               title amount d category_id in
    (Ok tt, {| db := db s; view := insert_expense e (view s) |}).

(** Lines 90-104.  [ok_cat] is the outcome of the commit inside
    [get_or_create_category] (line 65), [ok_exp] of the one on line 98. *)
Definition add_expense (today : Calendar.date) (ok_cat ok_exp : bool)
    (title : string) (amount : Q) (category_name exp_date : string)
    (store : Store) : result message * Store :=
  run_session store
    (try_except
       (cat <- get_or_create_category ok_cat category_name ;;
        let d := match parse_date exp_date with Some d => d | None => today end in
        add_expense_row (Text.strip title) amount d (Category.id cat) ;;;
        commit ok_exp ;;;
        ret (Added title amount (Category.name cat) d))
       (rollback ;;; ret Error)).

(** Lines 106-121. *)
Definition delete_expense (ok : bool) (expense_id : Z) (store : Store)
    : result message * Store :=
  run_session store
    (try_except
       (exp <- query (fun st => find (fun e => Expense.id e =? expense_id) (expenses st)) ;;
        match exp with
        | None => ret (NotFound expense_id)
        | Some exp =>
            cat <- query (fun st => find (fun c => Category.id c =? Expense.category_id exp)
                                      (categories st)) ;;
            match cat with
            | None => raise AttributeError
            | Some cat =>
                update (remove_expense exp) ;;;
                commit ok ;;;
                ret (Deleted (Expense.title exp) (Expense.amount exp) (Category.name cat))
            end
        end)
       (rollback ;;; ret Error)).

(** ORDER BY date DESC, id DESC (line 127). *)
Definition by_date_desc_id_desc (e1 e2 : Expense.t) : bool :=
  (Expense.date e2 <? Expense.date e1)
  || ((Expense.date e2 =? Expense.date e1) && (Expense.id e2 <=? Expense.id e1)).

(** Lines 123-140: the rows that are printed. *)
Definition list_expenses (limit : Z) (store : Store) : list Expense.t :=
  Sql.limit limit (Sql.order_by by_date_desc_id_desc (expenses store)).

(** ORDER BY date DESC (line 145). *)
Definition by_date_desc (e1 e2 : Expense.t) : bool :=
  Expense.date e2 <=? Expense.date e1.

(** One optional bound of the search (lines 147-152 and 154-159): the
    message printed, if any, and the filter added to the query. *)
Definition date_bound (text : string) (invalid : message)
    (keep : Calendar.date -> Expense.t -> bool)
    : list message * (Expense.t -> bool) :=
  if (text =? "")%string then ([], fun _ => true)
  else match parse_date text with
       | Some d => ([], keep d)
       | None => ([invalid], fun _ => true)
       end.

(** Lines 142-173: the messages and the rows that are printed. *)
Definition search_expenses (start_date end_date : string) (store : Store)
    : list message * list Expense.t :=
  let '(m1, from_start) :=
    date_bound start_date InvalidStartDate (fun sd e => sd <=? Expense.date e) in
  let '(m2, to_end) :=
    date_bound end_date InvalidEndDate (fun ed e => Expense.date e <=? ed) in
  ((m1 ++ m2)%list,
   Sql.order_by by_date_desc (filter to_end (filter from_start (expenses store)))).

(** The amounts the LEFT JOIN attaches to category [c] (lines 184-185). *)
Definition joined_amounts (month : string) (store : Store) (c : Category.t) : list Q :=
  map Expense.amount
    (filter (fun e => (Category.id c =? Expense.category_id e)
                      && (Calendar.strftime_Ym (Expense.date e) =? month)%string)
       (expenses store)).

(** ORDER BY total DESC (line 187). *)
Definition by_total_desc (r1 r2 : string * Q) : bool := Qle_bool (snd r2) (snd r1).

(** The query of lines 181-189. *)
Definition category_totals (month : string) (store : Store) : list (string * Q) :=
  Sql.order_by by_total_desc
    (map (fun n =>
            (n, Sql.sum (flat_map (joined_amounts month store)
                           (filter (fun c => (Category.name c =? n)%string) (categories store)))))
       (Sql.group_keys (map Category.name (categories store)))).

(** Lines 175-205: [None] is the line "No spending in <month>"; otherwise
    the printed rows and the printed total. *)
Definition category_report (today : Calendar.date) (month : string) (store : Store)
    : option (list (string * Q) * Q) :=
  let month := if (month =? "")%string then Calendar.get_current_month today else month in
  let result := category_totals month store in
  if forallb (fun r => Qeq_bool (snd r) 0) result then None
  else
    let rows := filter (fun r => Qltb 0 (snd r)) result in
    Some (rows, fold_left (fun total r => (total + snd r)%Q) rows 0%Q).

(** The query of lines 216-221. *)
Definition spent_in_month (month : string) (store : Store) : Q :=
  Sql.sum (map Expense.amount
             (filter (fun e => (Calendar.strftime_Ym (Expense.date e) =? month)%string)
                (expenses store))).

(** Lines 207-231. *)
Definition budget_status (today : Calendar.date) (store : Store) : budget_report :=
  let month := Calendar.get_current_month today in
  match find (fun b => (Budget.month b =? month)%string) (budgets store) with
  | None => NoBudget month
  | Some budget =>
      let spent := spent_in_month month store in
      let percent :=
        if Qltb 0 (Budget.limit budget)
        then (spent / Budget.limit budget * 100)%Q else 0%Q in
      let status_color :=
        if Qltb percent 80 then green else if Qltb percent 100 then yellow else red in
      let status_text :=
        if Qltb percent 80 then "GOOD"
        else if Qltb percent 100 then "CAUTION" else "OVER BUDGET!" in
      Status month (Budget.limit budget) spent percent status_text status_color
  end.

(** Lines 233-250. *)
Definition set_budget (today : Calendar.date) (ok : bool) (limit : Q)
    (month : string) (store : Store) : result message * Store :=
  let month := if (month =? "")%string then Calendar.get_current_month today else month in
  run_session store
    (try_except
       (b <- query (fun st => find (fun b => (Budget.month b =? month)%string) (budgets st)) ;;
        match b with
        | Some b => update (update_budget_limit b limit)
        | None =>
            update (fun st =>
              insert_budget
                (Budget.mk (Sql.next_id (map Budget.id (budgets st))) month limit) st)
        end ;;;
        commit ok ;;;
        ret (BudgetSet month limit))
       (rollback ;;; ret Error)).

(** Lines 252-268. *)
Definition add_subscription (ok : bool) (name : string) (amount : Q)
    (next_date_str : string) (store : Store) : result message * Store :=
  match parse_date next_date_str with
  | None => (Ok InvalidDate, store)
  | Some d =>
      run_session store
        (try_except
           (update (fun st =>
              insert_subscription
                (Subscription.mk (Sql.next_id (map Subscription.id (subscriptions st)))
                   (Text.strip name) amount d) st) ;;;
            commit ok ;;;
            ret (SubscriptionAdded name amount d))
           (rollback ;;; ret Error))
  end.

(** ORDER BY next_date (line 278). *)
Definition by_next_date (s1 s2 : Subscription.t) : bool :=
  Subscription.next_date s1 <=? Subscription.next_date s2.

(** Lines 288-290, for one subscription. *)
Definition upcoming (today : Calendar.date) (s : Subscription.t) : upcoming_row :=
  let days_left := Subscription.next_date s - today in
  {| subscription := s;
     days_left := days_left;
     days_text := if 0 <? days_left then InDays days_left
                 else if days_left =? 0 then TodayBang
                 else DaysOverdue (- days_left);
     color_code := if days_left <=? 0 then red
                  else if days_left <=? 7 then yellow else green |}.

(** Lines 270-294: the rows that are printed, or the OverflowError of
    line 274, which nothing catches. *)
Definition list_upcoming_subscriptions (today : Calendar.date) (days : Z)
    (store : Store) : result (list upcoming_row) :=
  match Calendar.date_add today days with
  | None => Raise OverflowError
  | Some soon =>
      Ok (map (upcoming today)
            (Sql.order_by by_next_date
               (filter (fun s => Subscription.next_date s <=? soon)
                  (subscriptions store))))
  end.

(** ** The menu entries that change the store (lines 329-392) *)

(** Choice 1, with the four answers typed by the user. *)
Definition menu_add_expense (today : Calendar.date) (ok_cat ok_exp : bool)
    (title_in amount_in category_in date_in : string) (store : Store)
    : result message * Store :=
  let title := Text.strip title_in in
  if (title =? "")%string then (Ok TitleRequired, store)
  else
    match float_of_string amount_in with
    | None => (Ok InvalidAmount, store)
    | Some amount =>
        if Qle_bool amount 0 then (Ok InvalidAmount, store)
        else
          let category := Text.strip category_in in
          if (category =? "")%string then (Ok CategoryRequired, store)
          else add_expense today ok_cat ok_exp title amount category
                 (Text.strip date_in) store
    end.

(** Choice 2. *)
Definition menu_delete_expense (ok : bool) (id_in : string) (store : Store)
    : result message * Store :=
  match int_of_string id_in with
  | None => (Ok InvalidNumber, store)
  | Some eid => delete_expense ok eid store
  end.

(** Choice 7. *)
Definition menu_set_budget (today : Calendar.date) (ok : bool) (limit_in : string)
    (store : Store) : result message * Store :=
  match float_of_string limit_in with
  | None => (Ok InvalidPositiveNumber, store)
  | Some limit =>
      if Qle_bool limit 0 then (Ok InvalidPositiveNumber, store)
      else set_budget today ok limit "" store
  end.

(** Choice 8. *)
Definition menu_add_subscription (ok : bool) (name_in amount_in date_in : string)
    (store : Store) : result message * Store :=
  let name := Text.strip name_in in
  if (name =? "")%string then (Ok NameRequired, store)
  else
    match float_of_string amount_in with
    | None => (Ok InvalidSubscriptionAmount, store)
    | Some amount =>
        if Qle_bool amount 0 then (Ok InvalidSubscriptionAmount, store)
        else add_subscription ok name amount (Text.strip date_in) store
    end.

End Operations.

(** ** The figures of the budget report on IEEE doubles *)

Module Doubles.

Import Floats.

(** Line 223 as the program computes it: [spent] is the double that the
    query of lines 216-221 returned, [limit] the double of the budget row;
    the division and the multiplication round as binary64 does. *)
Definition percent_of (spent limit : float) : float :=
  if PrimFloat.ltb 0 limit
  then PrimFloat.mul (PrimFloat.div spent limit) 100
  else 0%float.

(** Line 224. *)
Definition status_color_of (percent : float) : color_name :=
  if PrimFloat.ltb percent 80 then green
  else if PrimFloat.ltb percent 100 then yellow else red.

(** Line 225. *)
Definition status_text_of (percent : float) : string :=
  if PrimFloat.ltb percent 80 then "GOOD"%string
  else if PrimFloat.ltb percent 100 then "CAUTION"%string
  else "OVER BUDGET!"%string.

(** Lines 216-221.  [month_sum] is SUM(amount) over the month: NULL
    ([None]) when the month has no expense, which COALESCE turns into 0
    and [or 0.0] into 0.0; a sum that compares equal to zero (0.0 or -0.0)
    is falsy and becomes 0.0 too; any other double is kept. *)
Definition spent_of (month_sum : option float) : float :=
  match month_sum with
  | Some x => if PrimFloat.eqb x 0 then 0%float else x
  | None => 0%float
  end.

(** [budget_status] on what its two queries returned: [budget_limit] is the
    limit of the month's budget row ([None]: no row, "No budget set" is
    printed and nothing else), [month_sum] the result of the SUM query.
    The result is the spent amount, the limit, the percent, the band and
    its colour. *)
Definition budget_status (budget_limit month_sum : option float)
  : option (float * float * float * string * color_name) :=
  match budget_limit with
  | None => None
  | Some limit =>
      let spent := spent_of month_sum in
      let percent := percent_of spent limit in
      Some (spent, limit, percent, status_text_of percent, status_color_of percent)
  end.


End Doubles.

(** ** Rows and keys named by the properties *)

(** The category that [get_or_create_category] makes for a new name. *)
Definition new_category (name : string) (store : Store) : Category.t :=
  Category.mk (Sql.next_id (map Category.id (categories store))) (Text.normalize name).

(** The row that [add_expense] adds for category [cat]. *)
Definition new_expense (strptime : string -> option Calendar.date)
    (today : Calendar.date) (title : string) (amount : Q) (exp_date : string)
    (cat : Category.t) (store : Store) : Expense.t :=
  Expense.mk (Sql.next_id (map Expense.id (expenses store))) (Text.strip title) amount
    (match parse_date strptime exp_date with Some d => d | None => today end)
    (Category.id cat).

(** The month a call of [set_budget] or [category_report] is about: the
    current one when the argument is empty (lines 176-177 and 234-235). *)
Definition month_or_current (today : Calendar.date) (month : string) : string :=
  if (month =? "")%string then Calendar.get_current_month today else month.

(** ** Orders named by the properties *)

(** Date descending, ties by id descending. *)
Definition newest_first (e1 e2 : Expense.t) : Prop :=
  Expense.date e2 < Expense.date e1
  \/ (Expense.date e2 = Expense.date e1 /\ Expense.id e2 <= Expense.id e1).

(** ** Sequences of store-changing calls *)

(** One call of a function of the module that can change the store, with
    the clock and the commit outcomes it meets. *)
Inductive action :=
| AddExpense (today : Calendar.date) (ok_cat ok_exp : bool)
    (title : string) (amount : Q) (category_name exp_date : string)
| DeleteExpense (ok : bool) (expense_id : Z)
| SetBudget (today : Calendar.date) (ok : bool) (limit : Q) (month : string)
| AddSubscription (ok : bool) (name : string) (amount : Q) (next_date_str : string)
| ResolveCategory (ok : bool) (name : string).

Definition apply_action (strptime : string -> option Calendar.date)
    (a : action) (store : Store) : Store :=
  match a with
  | AddExpense today ok_cat ok_exp title amount category_name exp_date =>
      snd (add_expense strptime today ok_cat ok_exp title amount category_name
             exp_date store)
  | DeleteExpense ok expense_id => snd (delete_expense ok expense_id store)
  | SetBudget today ok limit month => snd (set_budget today ok limit month store)
  | AddSubscription ok name amount next_date_str =>
      snd (add_subscription strptime ok name amount next_date_str store)
  | ResolveCategory ok name =>
      snd (run_session store (get_or_create_category ok name))
  end.

Definition run_actions (strptime : string -> option Calendar.date)
    (l : list action) (store : Store) : Store :=
  fold_left (fun st a => apply_action strptime a st) l store.

(** The integrity conditions of the data model that the category report
    relies on: category ids are distinct, every expense points at an
    existing category, and every expense amount is positive. *)
Definition expenses_consistent (store : Store) : Prop :=
  NoDup (map Category.id (categories store))
  /\ Forall (fun e => In (Expense.category_id e) (map Category.id (categories store))
                      /\ (0 < Expense.amount e)%Q)
       (expenses store).

(** A budget table with distinct ids and at most one row per month. *)
Definition budgets_consistent (store : Store) : Prop :=
  NoDup (map Budget.id (budgets store))
  /\ NoDup (map Budget.month (budgets store)).

(** The stores that the menu can build, starting from the empty database. *)
Inductive reachable (strptime : string -> option Calendar.date)
    (float_of_string : string -> option Q) (int_of_string : string -> option Z)
    : Store -> Prop :=
| reach_empty : reachable strptime float_of_string int_of_string empty_store
| reach_add_expense store today ok_cat ok_exp title_in amount_in category_in date_in :
    reachable strptime float_of_string int_of_string store ->
    reachable strptime float_of_string int_of_string
      (snd (menu_add_expense strptime float_of_string today ok_cat ok_exp
              title_in amount_in category_in date_in store))
| reach_delete_expense store ok id_in :
    reachable strptime float_of_string int_of_string store ->
    reachable strptime float_of_string int_of_string
      (snd (menu_delete_expense int_of_string ok id_in store))
| reach_set_budget store today ok limit_in :
    reachable strptime float_of_string int_of_string store ->
    reachable strptime float_of_string int_of_string
      (snd (menu_set_budget float_of_string today ok limit_in store))
| reach_add_subscription store ok name_in amount_in date_in :
    reachable strptime float_of_string int_of_string store ->
    reachable strptime float_of_string int_of_string
      (snd (menu_add_subscription strptime float_of_string ok name_in amount_in
              date_in store)).

(** ** Further integrity conditions *)

(** A category table as [get_or_create_category] keeps it: distinct ids,
    distinct names, and every name in the form that line 60 produces. *)
Definition categories_consistent (store : Store) : Prop :=
  NoDup (map Category.id (categories store))
  /\ NoDup (map Category.name (categories store))
  /\ Forall (fun c => Text.normalize (Category.name c) = Category.name c)
       (categories store).

(** Distinct category ids, distinct expense ids, and every expense in an
    existing category. *)
Definition references_consistent (store : Store) : Prop :=
  NoDup (map Category.id (categories store))
  /\ NoDup (map Expense.id (expenses store))
  /\ Forall (fun e => In (Expense.category_id e) (map Category.id (categories store)))
       (expenses store).

(** What the checks of the menu (lines 329-392) let through: no blank
    title, category or subscription name, and no amount or limit that is
    not positive. *)
Definition menu_data_valid (store : Store) : Prop :=
  Forall (fun c => Category.name c <> ""%string) (categories store)
  /\ Forall (fun e => Expense.title e <> ""%string /\ (0 < Expense.amount e)%Q)
       (expenses store)
  /\ Forall (fun b => (0 < Budget.limit b)%Q) (budgets store)
  /\ Forall (fun x => Subscription.name x <> ""%string
                      /\ (0 < Subscription.amount x)%Q)
       (subscriptions store).

(** The two optional bounds of a search, as [search_expenses] reads them:
    an empty or unparsable text is no bound. *)
Definition in_search_range (strptime : string -> option Calendar.date)
    (start_date end_date : string) (e : Expense.t) : Prop :=
  (forall sd, parse_date strptime start_date = Some sd -> sd <= Expense.date e)
  /\ (forall ed, parse_date strptime end_date = Some ed -> Expense.date e <= ed).

(** The integers that SQLite can bind: a Python int outside this range makes
    the driver raise OverflowError before the statement runs, a path that
    [delete_expense] and [list_expenses] above do not model. *)
Definition fits_int64 (n : Z) : Prop := - 2 ^ 63 <= n < 2 ^ 63.

(** ** Sample data for the worked examples *)

Module Sample.

(** A stand-in for [strptime] that knows three dates. *)
Definition strptime (s : string) : option Calendar.date :=
  if (s =? "2024-01-05")%string then Some 738890
  else if (s =? "2024-01-01")%string then Some 738886
  else if (s =? "2024-02-10")%string then Some 738926
  else None.

(** A stand-in for [float] that knows four numerals. *)
Definition float_of_string (s : string) : option Q :=
  if (s =? "150")%string then Some 150%Q
  else if (s =? "-5")%string then Some (-5)%Q
  else if (s =? "0")%string then Some 0%Q
  else if (s =? "5000")%string then Some 5000%Q
  else None.

Definition int_of_string (s : string) : option Z :=
  if (s =? "1")%string then Some 1 else if (s =? "2")%string then Some 2 else None.

(** 2024-01-15. *)
Definition today : Calendar.date := 738900.

(** After [add_expense("Coffee", 150.0, "Food", "2024-01-05")]. *)
Definition coffee : Store :=
  snd (add_expense strptime today true true "Coffee" 150 "Food" "2024-01-05"
         empty_store).

(** Then [add_expense("Rent", 10000.0, "Housing", "2024-01-01")]. *)
Definition coffee_rent : Store :=
  snd (add_expense strptime today true true "Rent" 10000 "Housing" "2024-01-01"
         coffee).

(** Two expenses on the same day: ids 1 and 2, both dated 2024-01-05. *)
Definition coffee_tea : Store :=
  snd (add_expense strptime today true true "Tea" 10 "Food" "2024-01-05" coffee).

(** A budget of 5000 for January 2024 and expenses of 4000 in that month. *)
Definition budgeted : Store :=
  snd (add_expense strptime today true true "Rent" 4000 "Housing" "2024-01-01"
         (snd (set_budget today true 5000 "2024-01" empty_store))).

(** A single expense with a negative amount, as [add_expense] accepts it:
    [add_expense("Refund", -5.0, "Food", "2024-01-05")] on the empty
    database. *)
Definition refund : Store :=
  snd (add_expense strptime today true true "Refund" (-5) "Food" "2024-01-05"
         empty_store).

(** One subscription due three days after [today]. *)
Definition netflix : Store :=
  {| categories := []; expenses := []; budgets := [];
     subscriptions := [Subscription.mk 1 "Netflix" 499 (today + 3)] |}.

End Sample.

(** * Properties *)

Unset Implicit Arguments.

(** ** Text *)

Module TextFacts.
Import Text.

Lemma isspace_lower_char c : isspace (lower_char c) = isspace c.
Proof. destruct c as [[] [] [] [] [] [] [] []]; reflexivity. Qed.

Lemma lower_app s t : lower (s ++ t) = (lower s ++ lower t)%string.
Proof. induction s as [|c s IH]; simpl; [reflexivity | now rewrite IH]. Qed.

Lemma lstrip_lower s : lstrip (lower s) = lower (lstrip s).
Proof.
  induction s as [|c s IH]; simpl; [reflexivity|].
  rewrite isspace_lower_char. destruct (isspace c); [exact IH | reflexivity].
Qed.

Lemma rstrip_lower s : rstrip (lower s) = lower (rstrip s).
Proof.
  induction s as [|c s IH]; simpl; [reflexivity|].
  rewrite IH, isspace_lower_char.
  destruct (rstrip s); simpl; [destruct (isspace c)|]; reflexivity.
Qed.

Lemma strip_lower s : strip (lower s) = lower (strip s).
Proof. unfold strip. now rewrite lstrip_lower, rstrip_lower. Qed.

Lemma lstrip_blank s : blank s = true -> lstrip s = EmptyString.
Proof.
  induction s as [|c s IH]; simpl; [reflexivity|].
  intros H. apply andb_prop in H as [Hc Hs]. rewrite Hc. auto.
Qed.

Lemma rstrip_blank s : blank s = true -> rstrip s = EmptyString.
Proof.
  induction s as [|c s IH]; simpl; [reflexivity|].
  intros H. apply andb_prop in H as [Hc Hs]. rewrite (IH Hs), Hc. reflexivity.
Qed.

Lemma strip_blank s : blank s = true -> strip s = EmptyString.
Proof. intros H. unfold strip. now rewrite (lstrip_blank _ H). Qed.

Lemma blank_app s t : blank (s ++ t) = blank s && blank t.
Proof.
  induction s as [|c s IH]; simpl; [reflexivity|].
  now rewrite IH, andb_assoc.
Qed.

(** Leading whitespace disappears. *)
Lemma lstrip_app_blank pre s : blank pre = true -> lstrip (pre ++ s) = lstrip s.
Proof.
  induction pre as [|c pre IH]; simpl; [reflexivity|].
  intros H. apply andb_prop in H as [Hc Hs]. rewrite Hc. auto.
Qed.

(** Trailing whitespace disappears. *)
Lemma rstrip_app_blank s post : blank post = true -> rstrip (s ++ post) = rstrip s.
Proof.
  intros H. induction s as [|c s IH]; simpl.
  - now apply rstrip_blank.
  - now rewrite IH.
Qed.

Lemma lstrip_app s t :
  lstrip (s ++ t) = if blank s then lstrip t else (lstrip s ++ t)%string.
Proof.
  induction s as [|c s IH]; simpl; [reflexivity|].
  destruct (isspace c); simpl; [exact IH | reflexivity].
Qed.

Lemma strip_padded pre core post :
  blank pre = true -> blank post = true -> strip (pre ++ core ++ post) = strip core.
Proof.
  intros Hpre Hpost. unfold strip.
  rewrite (lstrip_app_blank _ _ Hpre), lstrip_app.
  destruct (blank core) eqn:Hcore.
  - rewrite (lstrip_blank _ Hpost), (lstrip_blank _ Hcore). reflexivity.
  - now apply rstrip_app_blank.
Qed.

Lemma lower_char_capital c :
  lower_char c = if is_capital c then small_of c else c.
Proof. reflexivity. Qed.

Lemma lower_char_small_of c :
  is_capital c = true -> lower_char (small_of c) = small_of c.
Proof. destruct c as [[] [] [] [] [] [] [] []]; intros H; try discriminate H; reflexivity. Qed.

Lemma same_letter_lower c1 c2 :
  same_letter c1 c2 = true -> lower_char c1 = lower_char c2.
Proof.
  unfold same_letter. rewrite !orb_true_iff, !andb_true_iff.
  intros [[H|[Hcap H]]|[Hcap H]]; apply Ascii.eqb_eq in H; subst.
  - reflexivity.
  - now rewrite (lower_char_small_of _ Hcap), lower_char_capital, Hcap.
  - now rewrite (lower_char_small_of _ Hcap), lower_char_capital, Hcap.
Qed.

Lemma case_variant_lower s1 s2 :
  case_variant s1 s2 = true -> lower s1 = lower s2.
Proof.
  revert s2. induction s1 as [|c1 s1 IH]; intros [|c2 s2]; cbn;
    try discriminate; [reflexivity|].
  intros H. apply andb_prop in H as [Hc Hs].
  now rewrite (same_letter_lower _ _ Hc), (IH _ Hs).
Qed.

(** The two spellings of one name have the same normal form. *)
Lemma normalize_same a b : padded_case_variants a b -> normalize a = normalize b.
Proof.
  intros [pre1 core1 post1 pre2 core2 post2 H1 H2 H3 H4 Hcore].
  apply case_variant_lower in Hcore.
  unfold normalize. rewrite !strip_padded by assumption.
  rewrite <- !strip_lower. now rewrite Hcore.
Qed.

Lemma normalize_blank s : blank s = true -> normalize s = EmptyString.
Proof. intros H. unfold normalize. now rewrite (strip_blank _ H). Qed.

Example normalize_food :
  normalize " Food " = "food"%string /\ normalize "FOOD" = "food"%string
  /\ normalize "food" = "food"%string.
Proof. repeat split; reflexivity. Qed.

(** [" Food "] and ["FOOD"] differ only in casing and surrounding blanks. *)
Example food_spellings : padded_case_variants " Food " "FOOD".
Proof.
  exact (padded_intro " " "Food" " " "" "FOOD" "" eq_refl eq_refl eq_refl eq_refl
           eq_refl).
Qed.

End TextFacts.

(** ** Calendar *)

Module CalendarFacts.
Import Calendar.
Local Open Scope Z_scope.

Example ord2ymd_epoch : ord2ymd 1 = (1, 1, 1).
Proof. reflexivity. Qed.

Example ord2ymd_leap_day : ord2ymd 738945 = (2024, 2, 29).
Proof. reflexivity. Qed.

Example ord2ymd_century : ord2ymd 693655 = (1900, 3, 1).
Proof. reflexivity. Qed.

Example ord2ymd_cycle_end : ord2ymd 146097 = (400, 12, 31).
Proof. reflexivity. Qed.

Example ord2ymd_max : ord2ymd 3652059 = (9999, 12, 31).
Proof. reflexivity. Qed.

Example month_of_2024_01_05 : strftime_Ym 738890 = "2024-01"%string.
Proof. reflexivity. Qed.

Example month_of_2023_12_31 : strftime_Ym 738885 = "2023-12"%string.
Proof. reflexivity. Qed.

End CalendarFacts.

(** ** ORDER BY, LIMIT and SUM *)

Module SqlFacts.

Local Open Scope Q_scope.

Section OrderBy.

Variable A : Type.
Variable leb : A -> A -> bool.

Lemma insert_row_perm x l : Permutation (x :: l) (Sql.insert_row leb x l).
Proof.
  induction l as [|y l IH]; simpl; [apply Permutation_refl|].
  destruct (leb x y); [apply Permutation_refl|].
  eapply perm_trans; [apply perm_swap | apply perm_skip, IH].
Qed.

(** Sorting neither loses nor invents rows. *)
Lemma order_by_perm l : Permutation l (Sql.order_by leb l).
Proof.
  induction l as [|x l IH]; simpl; [constructor|].
  eapply perm_trans; [apply perm_skip, IH | apply insert_row_perm].
Qed.

Lemma order_by_In x l : In x (Sql.order_by leb l) <-> In x l.
Proof.
  split; apply Permutation_in; [apply Permutation_sym|]; apply order_by_perm.
Qed.

Lemma order_by_length l : List.length (Sql.order_by leb l) = List.length l.
Proof. symmetry. apply Permutation_length, order_by_perm. Qed.

Hypothesis leb_total : forall x y, leb x y = true \/ leb y x = true.
Hypothesis leb_trans : forall x y z, leb x y = true -> leb y z = true -> leb x z = true.

Lemma insert_row_sorted x l :
  StronglySorted (Sql.before leb) l -> StronglySorted (Sql.before leb) (Sql.insert_row leb x l).
Proof.
  induction 1 as [|y l Hl IH Hy]; simpl.
  - repeat constructor.
  - destruct (leb x y) eqn:Hxy.
    + constructor; [now constructor|].
      constructor; [exact Hxy|].
      eapply Forall_impl; [|exact Hy]. intros z Hz. now apply leb_trans with y.
    + constructor; [exact IH|].
      eapply Permutation_Forall; [apply insert_row_perm|].
      constructor; [|exact Hy].
      destruct (leb_total x y) as [H|H]; [congruence | exact H].
Qed.

(** The result of ORDER BY is sorted under its key. *)
Lemma order_by_sorted l : StronglySorted (Sql.before leb) (Sql.order_by leb l).
Proof.
  induction l as [|x l IH]; simpl; [constructor | now apply insert_row_sorted].
Qed.

End OrderBy.

Lemma sorted_firstn A (R : A -> A -> Prop) n l :
  StronglySorted R l -> StronglySorted R (firstn n l).
Proof.
  intros H. revert n. induction H as [|x l Hl IH Hx]; intros [|n]; simpl;
    try constructor; [apply IH|].
  rewrite Forall_forall in *. intros y Hy. apply Hx.
  rewrite <- (firstn_skipn n l). apply in_or_app. now left.
Qed.

Lemma sorted_map A B (f : A -> B) (R : B -> B -> Prop) l :
  StronglySorted (fun x y => R (f x) (f y)) l -> StronglySorted R (map f l).
Proof.
  induction 1 as [|x l Hl IH Hx]; simpl; constructor; [exact IH|].
  rewrite Forall_forall in *. intros y Hy.
  apply in_map_iff in Hy as [z [<- Hz]]. now apply Hx.
Qed.

Lemma sorted_filter A (R : A -> A -> Prop) (p : A -> bool) l :
  StronglySorted R l -> StronglySorted R (filter p l).
Proof.
  induction 1 as [|x l Hl IH Hx]; simpl; [constructor|].
  destruct (p x); [|exact IH]. constructor; [exact IH|].
  rewrite Forall_forall in *. intros y Hy. apply filter_In in Hy as [Hy _]. auto.
Qed.

Lemma limit_length A (n : Z) (l : list A) :
  (0 <= n)%Z -> (Z.of_nat (List.length (Sql.limit n l)) <= n)%Z.
Proof.
  intros Hn. unfold Sql.limit.
  destruct (Z.ltb_spec n 0) as [H|_]; [lia|].
  rewrite length_firstn. lia.
Qed.

Lemma limit_sorted A (R : A -> A -> Prop) n l :
  StronglySorted R l -> StronglySorted R (Sql.limit n l).
Proof.
  intros H. unfold Sql.limit. destruct (n <? 0)%Z; [exact H | now apply sorted_firstn].
Qed.

(** *** Sums of amounts *)

Lemma sum_app l1 l2 : Sql.sum (l1 ++ l2) == Sql.sum l1 + Sql.sum l2.
Proof. induction l1 as [|x l1 IH]; simpl; [lra | rewrite IH; lra]. Qed.

Lemma sum_perm l1 l2 : Permutation l1 l2 -> Sql.sum l1 == Sql.sum l2.
Proof. induction 1; simpl; lra. Qed.

Lemma sum_map_ext A (f g : A -> Q) l :
  (forall x, In x l -> f x == g x) -> Sql.sum (map f l) == Sql.sum (map g l).
Proof.
  induction l as [|x l IH]; simpl; intros H; [lra|].
  rewrite (H x) by now left. rewrite IH; [lra|]. intros y Hy. apply H. now right.
Qed.

Lemma sum_map_plus A (f g : A -> Q) l :
  Sql.sum (map (fun x => f x + g x) l) == Sql.sum (map f l) + Sql.sum (map g l).
Proof. induction l as [|x l IH]; simpl; [lra | rewrite IH; lra]. Qed.

Lemma sum_map_zero A (l : list A) : Sql.sum (map (fun _ => 0) l) == 0.
Proof. induction l as [|x l IH]; simpl; [lra | rewrite IH; lra]. Qed.

Lemma sum_flat_map A (g : A -> list Q) l :
  Sql.sum (flat_map g l) == Sql.sum (map (fun x => Sql.sum (g x)) l).
Proof.
  induction l as [|x l IH]; simpl; [lra|]. rewrite sum_app, IH. lra.
Qed.

Lemma sum_nonneg l : Forall (fun x => 0 <= x) l -> 0 <= Sql.sum l.
Proof. induction 1; simpl; lra. Qed.

(** Exactly one row of [l] carries the key [k]: summing [a] over the rows
    with that key gives [a]. *)
Lemma sum_indicator A (key : A -> Z) (k : Z) (a : Q) l :
  NoDup (map key l) -> In k (map key l) ->
  Sql.sum (map (fun x => if (key x =? k)%Z then a else 0) l) == a.
Proof.
  induction l as [|x l IH]; simpl; intros Hnd Hin; [contradiction|].
  inversion Hnd as [|? ? Hx Hl]; subst.
  destruct (Z.eqb_spec (key x) k) as [Heq|Hne].
  - rewrite (sum_map_ext _ (fun y => if (key y =? k)%Z then a else 0) (fun _ => 0)).
    + rewrite sum_map_zero. lra.
    + intros y Hy. destruct (Z.eqb_spec (key y) k) as [Hy'|_]; [|lra].
      exfalso. apply Hx. rewrite Heq, <- Hy'. now apply in_map.
  - rewrite IH; [lra | exact Hl | destruct Hin; [contradiction | assumption]].
Qed.

Lemma sum_indicator_string A (key : A -> string) (k : string) (a : Q) l :
  NoDup (map key l) -> In k (map key l) ->
  Sql.sum (map (fun x => if (key x =? k)%string then a else 0) l) == a.
Proof.
  induction l as [|x l IH]; simpl; intros Hnd Hin; [contradiction|].
  inversion Hnd as [|? ? Hx Hl]; subst.
  destruct (String.eqb_spec (key x) k) as [Heq|Hne].
  - rewrite (sum_map_ext _ (fun y => if (key y =? k)%string then a else 0) (fun _ => 0)).
    + rewrite sum_map_zero. lra.
    + intros y Hy. destruct (String.eqb_spec (key y) k) as [Hy'|_]; [|lra].
      exfalso. apply Hx. rewrite Heq, <- Hy'. now apply in_map.
  - rewrite IH; [lra | exact Hl | destruct Hin; [contradiction | assumption]].
Qed.

(** The Python loop [total = 0; for ...: total += amt]. *)
Lemma fold_left_total A (f : A -> Q) l acc :
  fold_left (fun total r => total + f r) l acc == acc + Sql.sum (map f l).
Proof.
  revert acc. induction l as [|x l IH]; intros acc; simpl; [lra|].
  rewrite IH. lra.
Qed.

Lemma next_id_above ids : Forall (fun i => (i < Sql.next_id ids)%Z) ids.
Proof.
  unfold Sql.next_id. induction ids as [|i ids IH]; cbn [fold_right]; [constructor|].
  constructor; [lia|].
  eapply Forall_impl; [|exact IH]. cbv beta. intros j Hj. lia.
Qed.

Lemma next_id_fresh ids : ~ In (Sql.next_id ids) ids.
Proof.
  intros H. pose proof (next_id_above ids) as Ha.
  rewrite Forall_forall in Ha. specialize (Ha _ H). lia.
Qed.

End SqlFacts.

(** ** Comparisons on amounts *)

Module AmountFacts.

Local Open Scope Q_scope.

Lemma Qltb_lt x y : Qltb x y = true <-> x < y.
Proof.
  unfold Qltb. rewrite negb_true_iff, <- not_true_iff_false, Qle_bool_iff.
  split; [apply Qnot_le_lt | apply Qlt_not_le].
Qed.

Lemma Qltb_ge x y : Qltb x y = false <-> y <= x.
Proof.
  unfold Qltb. rewrite negb_false_iff. apply Qle_bool_iff.
Qed.

End AmountFacts.

(** ** Budget status *)

Module BudgetStatus.

Import AmountFacts.
Local Open Scope Q_scope.

Import Floats.








(** Rounding decides the band: 7999999999999999 spent of a limit of 1e16
    is below 80 percent as a fraction, but the program's percent is 80.0
    and the band is CAUTION. *)
Example budget_band_rounding :
  Doubles.budget_status (Some 10000000000000000%float)
    (Some 7999999999999999%float)
  = Some (7999999999999999%float, 10000000000000000%float, 80%float,
          "CAUTION"%string, yellow).
Proof. reflexivity. Qed.

(** Without a budget row nothing is computed, and a month without
    expenses has spent 0.0, 0 percent, GOOD. *)
Example budget_status_edges :
  Doubles.budget_status None (Some 4000%float) = None
  /\ Doubles.budget_status (Some 5000%float) None
     = Some (0%float, 5000%float, 0%float, "GOOD"%string, green).
Proof. split; reflexivity. Qed.

End BudgetStatus.

(** ** Listing and searching expenses *)

Module ExpenseQueries.

Import SqlFacts.
Local Open Scope Z_scope.

Lemma by_date_desc_id_desc_iff e1 e2 :
  by_date_desc_id_desc e1 e2 = true <-> newest_first e1 e2.
Proof.
  unfold by_date_desc_id_desc, newest_first.
  rewrite orb_true_iff, andb_true_iff, Z.ltb_lt, Z.eqb_eq, Z.leb_le. tauto.
Qed.

Lemma by_date_desc_id_desc_total e1 e2 :
  by_date_desc_id_desc e1 e2 = true \/ by_date_desc_id_desc e2 e1 = true.
Proof. rewrite !by_date_desc_id_desc_iff. unfold newest_first. lia. Qed.

Lemma by_date_desc_id_desc_trans e1 e2 e3 :
  by_date_desc_id_desc e1 e2 = true -> by_date_desc_id_desc e2 e3 = true ->
  by_date_desc_id_desc e1 e3 = true.
Proof. rewrite !by_date_desc_id_desc_iff. unfold newest_first. lia. Qed.

Lemma sorted_weaken A (R S : A -> A -> Prop) l :
  (forall x y, R x y -> S x y) -> StronglySorted R l -> StronglySorted S l.
Proof.
  intros HRS. induction 1 as [|x l Hl IH Hx]; constructor; [exact IH|].
  eapply Forall_impl; [|exact Hx]. auto.
Qed.

(** Whatever the limit, the listed rows are rows of the table, newest
    first. *)
Lemma list_expenses_sorted limit store :
  StronglySorted newest_first (list_expenses limit store)
  /\ incl (list_expenses limit store) (expenses store).
Proof.
  unfold list_expenses. split.
  - apply limit_sorted.
    apply sorted_weaken with (R := Sql.before by_date_desc_id_desc).
    + intros x y. apply by_date_desc_id_desc_iff.
    + apply order_by_sorted;
        [apply by_date_desc_id_desc_total | apply by_date_desc_id_desc_trans].
  - intros e He. apply (order_by_In _ by_date_desc_id_desc).
    unfold Sql.limit in He. destruct (limit <? 0); [exact He|].
    rewrite <- (firstn_skipn (Z.to_nat limit)). apply in_or_app. now left.
Qed.

(** C7, as amended.  For every store and every limit N >= 0,
    [list_expenses(limit=N)] returns at most N rows, and the rows are
    sorted by date descending with ties broken by id descending. *)
Theorem list_expenses_capped_sorted (N : Z) (store : Store) :
  0 <= N ->
  Z.of_nat (List.length (list_expenses N store)) <= N
  /\ StronglySorted newest_first (list_expenses N store).
Proof.
  intros HN. split.
  - unfold list_expenses. now apply limit_length.
  - apply list_expenses_sorted.
Qed.

Lemma list_expenses_capped_sorted_witness :
  0 <= 1
  /\ Z.of_nat (List.length (list_expenses 1 Sample.coffee_tea)) <= 1
  /\ StronglySorted newest_first (list_expenses 1 Sample.coffee_tea).
Proof.
  split; [lia|].
  apply (list_expenses_capped_sorted 1 Sample.coffee_tea). lia.
Defined.

(** C7, as stated, fails for a negative limit: [list_expenses(limit=-1)]
    on a store with one expense returns that row, which is more than -1
    rows. *)
Lemma list_expenses_negative_limit :
  List.length (list_expenses (-1) Sample.coffee) = 1%nat
  /\ ~ (Z.of_nat (List.length (list_expenses (-1) Sample.coffee)) <= -1).
Proof. split; [reflexivity | intros H; apply H; reflexivity]. Qed.

Lemma by_date_desc_total e1 e2 :
  by_date_desc e1 e2 = true \/ by_date_desc e2 e1 = true.
Proof. unfold by_date_desc. rewrite !Z.leb_le. lia. Qed.

Lemma by_date_desc_trans e1 e2 e3 :
  by_date_desc e1 e2 = true -> by_date_desc e2 e3 = true -> by_date_desc e1 e3 = true.
Proof. unfold by_date_desc. rewrite !Z.leb_le. lia. Qed.

(** What the search does guarantee: the rows come by date descending. *)
Lemma search_expenses_by_date strptime start_date end_date store :
  StronglySorted (fun e1 e2 => Expense.date e2 <= Expense.date e1)
    (snd (search_expenses strptime start_date end_date store)).
Proof.
  unfold search_expenses.
  destruct (date_bound strptime start_date _ _) as [m1 from_start].
  destruct (date_bound strptime end_date _ _) as [m2 to_end]. simpl.
  apply sorted_weaken with (R := Sql.before by_date_desc).
  - intros x y. apply Z.leb_le.
  - apply order_by_sorted; [apply by_date_desc_total | apply by_date_desc_trans].
Qed.

(** The key of the search does not separate two rows of one date: either
    order of them is sorted under it. *)
Lemma by_date_desc_ties e1 e2 :
  Expense.date e1 = Expense.date e2 ->
  StronglySorted (Sql.before by_date_desc) [e1; e2]
  /\ StronglySorted (Sql.before by_date_desc) [e2; e1].
Proof.
  intros H. unfold Sql.before, by_date_desc.
  split; repeat constructor; apply Z.leb_le; lia.
Qed.

(** C2.  With the two expenses of 2024-01-05 (ids 1 and 2) and no date
    bound, [list_expenses] puts id 2 first, while [search_expenses], whose
    ORDER BY names the date only, returns id 1 first: its rows are not in
    the order date descending, id descending. *)
Theorem search_expenses_tie_order (strptime : string -> option Calendar.date) :
  map Expense.date (expenses Sample.coffee_tea) = [738890; 738890]
  /\ map Expense.id (list_expenses 15 Sample.coffee_tea) = [2; 1]
  /\ map Expense.id (snd (search_expenses strptime "" "" Sample.coffee_tea)) = [1; 2]
  /\ ~ StronglySorted newest_first
         (snd (search_expenses strptime "" "" Sample.coffee_tea)).
Proof.
  repeat split. intros H.
  remember (snd (search_expenses strptime "" "" Sample.coffee_tea)) as rows eqn:Hrows.
  vm_compute in Hrows. subst rows.
  inversion H as [|? ? _ Hfirst]; subst.
  inversion Hfirst as [|? ? Hlt _]; subst.
  unfold newest_first in Hlt. cbn in Hlt. lia.
Qed.

End ExpenseQueries.

(** ** Upcoming subscriptions *)

Module Subscriptions.

Import SqlFacts.
Local Open Scope Z_scope.




Lemma date_add_in_range today days :
  Z.abs days <= 999999999 -> 1 <= today + days <= 3652059 ->
  Calendar.date_add today days = Some (today + days).
Proof.
  intros Hdays Hsum. unfold Calendar.date_add, Calendar.date_in_range.
  destruct (Z.leb_spec (Z.abs days) 999999999); [|lia].
  destruct (Z.leb_spec 1 (today + days)); [|lia].
  destruct (Z.leb_spec (today + days) 3652059); [reflexivity | lia].
Qed.




End Subscriptions.

(** ** The functions that write, in direct style *)

Module Writes.

Local Open Scope Z_scope.

Lemma find_app_Some A (p : A -> bool) l l' x :
  find p l = Some x -> find p (l ++ l') = Some x.
Proof.
  induction l as [|y l IH]; simpl; [discriminate|].
  destruct (p y); [trivial | exact IH].
Qed.

Lemma find_app_None A (p : A -> bool) l l' :
  find p l = None -> find p (l ++ l') = find p l'.
Proof.
  induction l as [|y l IH]; simpl; [reflexivity|].
  destruct (p y); [discriminate | exact IH].
Qed.

(** [get_or_create_category] in a fresh session. *)
Lemma get_or_create_category_eq ok name store :
  get_or_create_category ok name (open_session store)
  = match category_by_name (Text.normalize name) store with
    | Some cat => (Ok cat, open_session store)
    | None =>
        if ok
        then (Ok (new_category name store),
              open_session (insert_category (new_category name store) store))
        else (Raise SQLAlchemyError,
              {| db := store; view := insert_category (new_category name store) store |})
    end.
Proof.
  unfold get_or_create_category, bind, query, open_session. cbn [view db].
  destruct (category_by_name (Text.normalize name) store); [reflexivity|].
  destruct ok; reflexivity.
Qed.

(** [add_expense], case by case. *)
Lemma add_expense_eq strptime today ok_cat ok_exp title amount category_name
    exp_date store :
  add_expense strptime today ok_cat ok_exp title amount category_name exp_date store
  = match category_by_name (Text.normalize category_name) store with
    | Some cat =>
        if ok_exp
        then (Ok (Added title amount (Category.name cat)
                    (Expense.date (new_expense strptime today title amount exp_date
                                     cat store))),
              insert_expense
                (new_expense strptime today title amount exp_date cat store) store)
        else (Ok Error, store)
    | None =>
        let cat := new_category category_name store in
        if ok_cat
        then
          if ok_exp
          then (Ok (Added title amount (Category.name cat)
                      (Expense.date (new_expense strptime today title amount exp_date
                                       cat store))),
                insert_expense
                  (new_expense strptime today title amount exp_date cat store)
                  (insert_category cat store))
          else (Ok Error, insert_category cat store)
        else (Ok Error, store)
    end.
Proof.
  unfold add_expense, run_session, try_except, bind at 1.
  rewrite get_or_create_category_eq.
  destruct (category_by_name (Text.normalize category_name) store) as [cat|].
  - destruct ok_exp; reflexivity.
  - destruct ok_cat, ok_exp; reflexivity.
Qed.

(** [delete_expense], case by case. *)
Lemma delete_expense_eq ok expense_id store :
  delete_expense ok expense_id store
  = match find (fun e => Expense.id e =? expense_id) (expenses store) with
    | None => (Ok (NotFound expense_id), store)
    | Some exp =>
        match find (fun c => Category.id c =? Expense.category_id exp)
                (categories store) with
        | None => (Raise AttributeError, store)
        | Some cat =>
            if ok
            then (Ok (Deleted (Expense.title exp) (Expense.amount exp)
                        (Category.name cat)),
                  remove_expense exp store)
            else (Ok Error, store)
        end
    end.
Proof.
  unfold delete_expense, run_session, try_except, bind, query, open_session.
  cbn [view db].
  destruct (find _ (expenses store)) as [exp|]; [|reflexivity].
  cbn [view db].
  destruct (find _ (categories store)) as [cat|]; [|reflexivity].
  destruct ok; reflexivity.
Qed.

(** [set_budget], case by case. *)
Lemma set_budget_eq today ok limit month store :
  set_budget today ok limit month store
  = if ok
    then (Ok (BudgetSet (month_or_current today month) limit),
          match find (fun b => (Budget.month b =? month_or_current today month)%string)
                  (budgets store) with
          | Some b => update_budget_limit b limit store
          | None =>
              insert_budget
                (Budget.mk (Sql.next_id (map Budget.id (budgets store)))
                   (month_or_current today month) limit) store
          end)
    else (Ok Error, store).
Proof.
  unfold set_budget, month_or_current, run_session, try_except, bind, query, open_session.
  cbn [view db].
  destruct (find _ (budgets store)); destruct ok; reflexivity.
Qed.

(** [add_subscription], case by case. *)
Lemma add_subscription_eq strptime ok name amount next_date_str store :
  add_subscription strptime ok name amount next_date_str store
  = match parse_date strptime next_date_str with
    | None => (Ok InvalidDate, store)
    | Some d =>
        if ok
        then (Ok (SubscriptionAdded name amount d),
              insert_subscription
                (Subscription.mk (Sql.next_id (map Subscription.id (subscriptions store)))
                   (Text.strip name) amount d) store)
        else (Ok Error, store)
    end.
Proof.
  unfold add_subscription, run_session, try_except, bind, open_session.
  destruct (parse_date strptime next_date_str); [|reflexivity].
  destruct ok; reflexivity.
Qed.

(** No call removes or changes a category: the table only grows at its
    end. *)
Lemma apply_action_categories strptime a store :
  exists extra,
    categories (apply_action strptime a store) = (categories store ++ extra)%list.
Proof.
  destruct a as [today ok_cat ok_exp title amount cname exp_date | ok eid
                | today ok limit month | ok name amount nd | ok name];
    unfold apply_action.
  - rewrite add_expense_eq.
    destruct (category_by_name _ store); [destruct ok_exp | destruct ok_cat, ok_exp];
      cbn; eauto using app_nil_r.
  - rewrite delete_expense_eq.
    destruct (find _ (expenses store)); [|exists []; cbn; now rewrite app_nil_r].
    destruct (find _ (categories store)); [destruct ok|];
      exists []; cbn; now rewrite app_nil_r.
  - rewrite set_budget_eq.
    destruct ok; [destruct (find _ (budgets store))|];
      exists []; cbn; now rewrite app_nil_r.
  - rewrite add_subscription_eq.
    destruct (parse_date strptime nd); [destruct ok|];
      exists []; cbn; now rewrite app_nil_r.
  - unfold run_session. rewrite get_or_create_category_eq.
    destruct (category_by_name _ store); [|destruct ok]; cbn; eauto using app_nil_r.
Qed.

Lemma run_actions_categories strptime l store :
  exists extra,
    categories (run_actions strptime l store) = (categories store ++ extra)%list.
Proof.
  revert store. induction l as [|a l IH]; intros store; cbn.
  - exists []. now rewrite app_nil_r.
  - destruct (IH (apply_action strptime a store)) as [extra2 H2].
    destruct (apply_action_categories strptime a store) as [extra1 H1].
    exists (extra1 ++ extra2)%list.
    unfold run_actions in H2. now rewrite H2, H1, app_assoc.
Qed.

(** A category found once is found, unchanged, after any later calls. *)
Lemma category_by_name_stable strptime l name store c :
  category_by_name name store = Some c ->
  category_by_name name (run_actions strptime l store) = Some c.
Proof.
  unfold category_by_name. intros H.
  destruct (run_actions_categories strptime l store) as [extra ->].
  now apply find_app_Some.
Qed.

End Writes.

(** ** Resolving categories *)

Module Categories.

Import Writes.

Lemma category_by_name_inserted name c store :
  category_by_name name store = None -> Category.name c = name ->
  category_by_name name (insert_category c store) = Some c.
Proof.
  unfold category_by_name, insert_category. cbn [categories]. intros Hnone Hname.
  rewrite (find_app_None _ _ _ _ Hnone). cbn. now rewrite Hname, String.eqb_refl.
Qed.

Lemma category_by_name_name name store c :
  category_by_name name store = Some c -> Category.name c = name.
Proof.
  unfold category_by_name. intros H. apply find_some in H as [_ H].
  now apply String.eqb_eq.
Qed.

(** C6, as stated, fails: "STRASSE" and "strasse" written with the sharp s
    differ only in casing (both are "STRASSE" in capitals), but lowering
    "STRASSE" does not give the sharp s, so the two inputs resolve to two
    different categories and two rows are created. *)
Lemma resolve_sharp_s :
  Text.upper Text.strasse_sharp_s = Some "STRASSE"%string
  /\ Text.upper "STRASSE" = Some "STRASSE"%string
  /\ get_or_create_category true "STRASSE" (open_session empty_store)
     = (Ok (Category.mk 1 "strasse"),
        open_session (insert_category (Category.mk 1 "strasse") empty_store))
  /\ fst (get_or_create_category true Text.strasse_sharp_s
            (open_session (insert_category (Category.mk 1 "strasse") empty_store)))
     = Ok (Category.mk 2 Text.strasse_sharp_s)
  /\ List.length
       (categories
          (close_session
             (snd (get_or_create_category true Text.strasse_sharp_s
                     (open_session
                        (insert_category (Category.mk 1 "strasse") empty_store))))))
     = 2%nat.
Proof. repeat split. Qed.

(** C6, as amended.  When two raw names differ only in surrounding
    whitespace or in the case of letters that have a one-character case
    pair (A..Z with a..z, and the accented capitals 0xC0..0xDE with their
    small letters), resolving the first and then the second returns the
    same Category, which is a row of the table, and the two calls together
    add at most one category row.  ([ok1], [ok2] are the outcomes of the
    commits; the first call can only raise when its commit is refused, and
    then nothing is stored.) *)
Theorem resolve_category_twice (name1 name2 : string) (ok1 ok2 : bool)
    (store : Store) :
  Text.padded_case_variants name1 name2 ->
  match get_or_create_category ok1 name1 (open_session store) with
  | (Ok c1, s1) =>
      get_or_create_category ok2 name2 (open_session (close_session s1))
      = (Ok c1, open_session (close_session s1))
      /\ In c1 (categories (close_session s1))
      /\ Category.name c1 = Text.normalize name1
      /\ (List.length (categories (close_session s1))
          <= S (List.length (categories store)))%nat
  | (Raise _, s1) => ok1 = false /\ close_session s1 = store
  end.
Proof.
  intros Hsame. apply TextFacts.normalize_same in Hsame.
  rewrite get_or_create_category_eq.
  destruct (category_by_name (Text.normalize name1) store) as [c|] eqn:Hfind.
  - cbn [close_session open_session db]. rewrite get_or_create_category_eq.
    rewrite <- Hsame, Hfind. split; [reflexivity|]. split; [|split].
    + unfold category_by_name in Hfind. now apply find_some in Hfind as [Hin _].
    + now apply category_by_name_name in Hfind.
    + auto.
  - destruct ok1; [|now split].
    cbn [close_session open_session db]. rewrite get_or_create_category_eq.
    rewrite <- Hsame.
    rewrite (category_by_name_inserted _ (new_category name1 store) _ Hfind eq_refl).
    split; [reflexivity|]. split; [|split; [reflexivity|]].
    + cbn. apply in_or_app. right. now left.
    + cbn. rewrite length_app. cbn. rewrite Nat.add_comm. auto.
Qed.

(** [" Food "] and then ["FOOD"] on the empty database. *)
Lemma resolve_category_twice_witness :
  Text.padded_case_variants " Food " "FOOD"
  /\ get_or_create_category true "FOOD"
       (open_session (insert_category (Category.mk 1 "food") empty_store))
     = (Ok (Category.mk 1 "food"),
        open_session (insert_category (Category.mk 1 "food") empty_store)).
Proof.
  split; [exact TextFacts.food_spellings|].
  exact (proj1 (resolve_category_twice " Food " "FOOD" true true empty_store
                  TextFacts.food_spellings)).
Defined.

(** C10.  For the empty string and for any whitespace-only input,
    [get_or_create_category] does not fail (the engine accepting the
    insert): it returns a Category whose name is the empty string, creating
    it if the table has none yet; after any later calls, every call with an
    empty or whitespace-only input returns that same Category and changes
    nothing. *)
Theorem blank_name_category (name : string) (store : Store) :
  Text.blank name = true ->
  exists (c : Category.t) (s1 : Session),
    get_or_create_category true name (open_session store) = (Ok c, s1)
    /\ Category.name c = ""%string
    /\ (category_by_name "" store = None ->
        categories (close_session s1) = (categories store ++ [c])%list)
    /\ (forall c0, category_by_name "" store = Some c0 ->
        c = c0 /\ close_session s1 = store)
    /\ forall (strptime : string -> option Calendar.date) (later : list action)
         (name2 : string) (ok2 : bool),
         Text.blank name2 = true ->
         get_or_create_category ok2 name2
           (open_session (run_actions strptime later (close_session s1)))
         = (Ok c, open_session (run_actions strptime later (close_session s1))).
Proof.
  intros Hblank. pose proof (TextFacts.normalize_blank _ Hblank) as Hnorm.
  rewrite get_or_create_category_eq, Hnorm.
  destruct (category_by_name "" store) as [c|] eqn:Hfind.
  - exists c, (open_session store). split; [reflexivity|].
    split; [now apply category_by_name_name in Hfind|].
    split; [discriminate|]. split.
    + intros c0 H0. injection H0 as <-. now split.
    + intros strptime later name2 ok2 Hblank2.
      rewrite get_or_create_category_eq, (TextFacts.normalize_blank _ Hblank2).
      cbn [close_session open_session db].
      now rewrite (category_by_name_stable strptime later _ _ _ Hfind).
  - exists (new_category name store),
      (open_session (insert_category (new_category name store) store)).
    split; [reflexivity|]. split; [exact Hnorm|].
    split; [reflexivity|]. split; [discriminate|].
    intros strptime later name2 ok2 Hblank2.
    rewrite get_or_create_category_eq, (TextFacts.normalize_blank _ Hblank2).
    cbn [close_session open_session db].
    assert (Hnew : category_by_name ""
                     (insert_category (new_category name store) store)
                   = Some (new_category name store)).
    { apply category_by_name_inserted; [exact Hfind | exact Hnorm]. }
    now rewrite (category_by_name_stable strptime later _ _ _ Hnew).
Qed.

(** Three blanks on the empty database, then the empty string after an
    expense was added. *)
Lemma blank_name_category_witness :
  Text.blank "   " = true
  /\ exists c : Category.t,
       Category.name c = ""%string
       /\ get_or_create_category false ""
            (open_session
               (run_actions Sample.strptime
                  [AddExpense Sample.today true true "Coffee" 150 "Food" ""]
                  (insert_category c empty_store)))
          = (Ok c,
             open_session
               (run_actions Sample.strptime
                  [AddExpense Sample.today true true "Coffee" 150 "Food" ""]
                  (insert_category c empty_store))).
Proof.
  split; [reflexivity|].
  destruct (blank_name_category "   " empty_store eq_refl)
    as (c & s1 & Hcall & Hname & _ & _ & Hlater).
  injection Hcall as <- <-.
  exists (Category.mk 1 ""). split; [reflexivity|].
  exact (Hlater Sample.strptime
           [AddExpense Sample.today true true "Coffee" 150 "Food" ""] ""%string false
           eq_refl).
Defined.

End Categories.

(** ** Adding expenses *)

Module AddExpense.

Import Writes.
Local Open Scope Q_scope.

(** C3, as stated, fails: on a new category name the category is committed
    on its own (line 65) before the expense is written, so when the commit
    of the expense is refused the rollback leaves the category row in the
    store. *)
Lemma add_expense_failure_keeps_category :
  add_expense Sample.strptime Sample.today true false "Coffee" 150 "Food"
    "2024-01-05" empty_store
  = (Ok Error,
     {| categories := [Category.mk 1 "food"]; expenses := []; budgets := [];
        subscriptions := [] |})
  /\ snd (add_expense Sample.strptime Sample.today true false "Coffee" 150 "Food"
            "2024-01-05" empty_store) <> empty_store.
Proof. split; [reflexivity | discriminate]. Qed.

(** [add_expense] reports the storage error exactly when a commit that it
    reaches is refused. *)
Lemma add_expense_error_iff strptime today ok_cat ok_exp title amount
    category_name exp_date store :
  fst (add_expense strptime today ok_cat ok_exp title amount category_name
         exp_date store) = Ok Error
  <-> match category_by_name (Text.normalize category_name) store with
      | Some _ => ok_exp = false
      | None => ok_cat = false \/ ok_exp = false
      end.
Proof.
  rewrite add_expense_eq.
  destruct (category_by_name (Text.normalize category_name) store) as [cat|];
    [destruct ok_exp | destruct ok_cat, ok_exp]; cbn;
    intuition (try discriminate; auto).
Qed.

(** C3, as amended.  When a write inside [add_expense] fails (the call
    reports the storage error), no expense row is persisted and the
    expense, budget and subscription tables are as before; the store as a
    whole is exactly as before when the category existed already or when
    the refused commit is the one that creates the category; otherwise the
    only change is the category row that [get_or_create_category] had
    committed. *)
Theorem add_expense_failure_rollback (strptime : string -> option Calendar.date)
    (today : Calendar.date) (ok_cat ok_exp : bool) (title : string) (amount : Q)
    (category_name exp_date : string) (store : Store) :
  fst (add_expense strptime today ok_cat ok_exp title amount category_name
         exp_date store) = Ok Error ->
  expenses (snd (add_expense strptime today ok_cat ok_exp title amount
                   category_name exp_date store)) = expenses store
  /\ budgets (snd (add_expense strptime today ok_cat ok_exp title amount
                     category_name exp_date store)) = budgets store
  /\ subscriptions (snd (add_expense strptime today ok_cat ok_exp title amount
                           category_name exp_date store)) = subscriptions store
  /\ (category_by_name (Text.normalize category_name) store <> None ->
      snd (add_expense strptime today ok_cat ok_exp title amount category_name
             exp_date store) = store)
  /\ (ok_cat = false ->
      snd (add_expense strptime today ok_cat ok_exp title amount category_name
             exp_date store) = store)
  /\ (category_by_name (Text.normalize category_name) store = None ->
      ok_cat = true ->
      snd (add_expense strptime today ok_cat ok_exp title amount category_name
             exp_date store)
      = insert_category (new_category category_name store) store).
Proof.
  rewrite add_expense_eq.
  destruct (category_by_name (Text.normalize category_name) store) as [cat|];
    [destruct ok_exp | destruct ok_cat, ok_exp]; cbn; intros H;
    try discriminate H; repeat split; intros; congruence.
Qed.

Lemma add_expense_failure_rollback_witness :
  fst (add_expense Sample.strptime Sample.today true false "Tea" 10 "Food" ""
         Sample.coffee) = Ok Error
  /\ snd (add_expense Sample.strptime Sample.today true false "Tea" 10 "Food" ""
            Sample.coffee) = Sample.coffee.
Proof.
  split; [reflexivity|].
  destruct (add_expense_failure_rollback Sample.strptime Sample.today true false
              "Tea" 10 "Food" "" Sample.coffee eq_refl)
    as (_ & _ & _ & Hsame & _).
  apply Hsame. vm_compute. discriminate.
Defined.

(** X23.  The other writers have a single commit: when it is refused,
    [delete_expense], [set_budget] and [add_subscription] leave the store
    exactly as it was, whatever their arguments. *)
Lemma single_commit_rollback strptime today expense_id limit month name amount
    next_date_str store :
  snd (delete_expense false expense_id store) = store
  /\ set_budget today false limit month store = (Ok Error, store)
  /\ snd (add_subscription strptime false name amount next_date_str store) = store.
Proof.
  rewrite delete_expense_eq, set_budget_eq, add_subscription_eq.
  destruct (find _ (expenses store)) as [exp|];
    [destruct (find _ (categories store))|];
    destruct (parse_date strptime next_date_str); repeat split.
Qed.

(** When every commit is accepted, [add_expense] stores the row, whatever
    the amount. *)
Lemma add_expense_success strptime today title amount category_name exp_date store :
  exists cat,
    add_expense strptime today true true title amount category_name exp_date store
    = (Ok (Added title amount (Category.name cat)
             (Expense.date (new_expense strptime today title amount exp_date cat store))),
       insert_expense (new_expense strptime today title amount exp_date cat store)
         (match category_by_name (Text.normalize category_name) store with
          | Some _ => store
          | None => insert_category cat store
          end)).
Proof.
  rewrite add_expense_eq.
  destruct (category_by_name (Text.normalize category_name) store) as [cat|];
    eexists; reflexivity.
Qed.

(** C4, as stated, fails: [add_expense] does not look at the amount; called
    with -5 on the empty database it stores a category and an expense and
    reports success. *)
Lemma add_expense_accepts_nonpositive :
  (-5 <= 0)
  /\ add_expense Sample.strptime Sample.today true true "Coffee" (-5) "Food"
       "2024-01-05" empty_store
     = (Ok (Added "Coffee" (-5) "food" 738890%Z),
        {| categories := [Category.mk 1 "food"];
           expenses := [Expense.mk 1 "Coffee" (-5) 738890%Z 1];
           budgets := []; subscriptions := [] |}).
Proof. split; [discriminate | reflexivity]. Qed.

(** C4, as amended.  The menu entry "Add Expense" (choice 1), given an
    amount that reads as a number <= 0, never calls [add_expense]: the
    store is unchanged and a validation message is printed ("Title is
    required." when the title is blank, otherwise "Enter a valid positive
    amount."), for every title, category name and date typed. *)
Theorem menu_add_expense_rejects_nonpositive
    (strptime : string -> option Calendar.date)
    (float_of_string : string -> option Q) (today : Calendar.date)
    (ok_cat ok_exp : bool) (title_in amount_in category_in date_in : string)
    (store : Store) (amount : Q) :
  float_of_string amount_in = Some amount ->
  amount <= 0 ->
  snd (menu_add_expense strptime float_of_string today ok_cat ok_exp
         title_in amount_in category_in date_in store) = store
  /\ fst (menu_add_expense strptime float_of_string today ok_cat ok_exp
            title_in amount_in category_in date_in store)
     = Ok (if (Text.strip title_in =? "")%string then TitleRequired
           else InvalidAmount).
Proof.
  intros Hfloat Hamount. unfold menu_add_expense.
  destruct (Text.strip title_in =? "")%string; [now split|].
  rewrite Hfloat. apply Qle_bool_iff in Hamount. rewrite Hamount. now split.
Qed.

Lemma menu_add_expense_rejects_nonpositive_witness :
  Sample.float_of_string "-5" = Some (-5)
  /\ (-5 <= 0)
  /\ snd (menu_add_expense Sample.strptime Sample.float_of_string Sample.today
            true true "Coffee" "-5" "Food" "2024-01-05" empty_store) = empty_store
  /\ fst (menu_add_expense Sample.strptime Sample.float_of_string Sample.today
            true true "Coffee" "-5" "Food" "2024-01-05" empty_store)
     = Ok InvalidAmount.
Proof.
  split; [reflexivity|]. split; [discriminate|].
  apply (menu_add_expense_rejects_nonpositive Sample.strptime
           Sample.float_of_string Sample.today true true "Coffee" "-5" "Food"
           "2024-01-05" empty_store (-5) eq_refl).
  discriminate.
Defined.

End AddExpense.

(** ** Budgets *)

Module Budgets.

Import Writes SqlFacts.

Lemma NoDup_map_inj A B (f : A -> B) l x y :
  NoDup (map f l) -> In x l -> In y l -> f x = f y -> x = y.
Proof.
  induction l as [|z l IH]; cbn; intros Hnd Hx Hy Hf; [contradiction|].
  inversion Hnd as [|? ? Hz Hl]; subst.
  destruct Hx as [->|Hx], Hy as [->|Hy]; trivial.
  - exfalso. apply Hz. rewrite Hf. now apply in_map.
  - exfalso. apply Hz. rewrite <- Hf. now apply in_map.
  - now apply IH.
Qed.

Lemma find_map_same A (p : A -> bool) (g : A -> A) l :
  (forall x, p (g x) = p x) -> find p (map g l) = option_map g (find p l).
Proof.
  intros Hp. induction l as [|x l IH]; cbn; [reflexivity|].
  rewrite Hp. destruct (p x); [reflexivity | exact IH].
Qed.

Lemma with_limit_same b : Budget.with_limit (Budget.limit b) b = b.
Proof. now destruct b. Qed.

(** Rewriting the limit of the row of month [m], by id or by month, is the
    same thing on a consistent table. *)
Lemma update_by_month store b m limit :
  budgets_consistent store ->
  find (fun x => (Budget.month x =? m)%string) (budgets store) = Some b ->
  budgets (update_budget_limit b limit store)
  = map (fun x => if (Budget.month x =? m)%string
                  then Budget.with_limit limit x else x) (budgets store).
Proof.
  intros [Hids Hmonths] Hfind. apply find_some in Hfind as [Hin Hm].
  apply String.eqb_eq in Hm. cbn. apply map_ext_in. intros x Hx.
  destruct (Z.eqb_spec (Budget.id x) (Budget.id b)) as [Hid|Hid];
    destruct (String.eqb_spec (Budget.month x) m) as [Hmx|Hmx]; trivial.
  - exfalso. apply Hmx.
    now rewrite (NoDup_map_inj _ _ Budget.id _ x b Hids Hx Hin Hid).
  - exfalso. apply Hid.
    rewrite (NoDup_map_inj _ _ Budget.month _ x b Hmonths Hx Hin); congruence.
Qed.

Lemma set_budget_consistent today ok limit month store :
  budgets_consistent store ->
  budgets_consistent (snd (set_budget today ok limit month store)).
Proof.
  intros Hc. rewrite set_budget_eq. destruct ok; [|exact Hc]. cbn [snd].
  destruct (find _ (budgets store)) as [b|] eqn:Hfind.
  - destruct Hc as [Hids Hmonths]. unfold budgets_consistent. cbn.
    rewrite !map_map.
    rewrite (map_ext (fun x => Budget.id (if (Budget.id x =? Budget.id b)%Z
                                          then Budget.with_limit limit x else x))
               Budget.id) by (intros x; now destruct (Budget.id x =? Budget.id b)%Z).
    rewrite (map_ext (fun x => Budget.month (if (Budget.id x =? Budget.id b)%Z
                                             then Budget.with_limit limit x else x))
               Budget.month) by (intros x; now destruct (Budget.id x =? Budget.id b)%Z).
    now split.
  - destruct Hc as [Hids Hmonths]. unfold budgets_consistent. cbn.
    rewrite !map_app. cbn. split.
    + apply NoDup_app; [exact Hids | repeat constructor; intros [] |].
      intros i Hi [<-|[]]. now apply (next_id_fresh (map Budget.id (budgets store))).
    + apply NoDup_app; [exact Hmonths | repeat constructor; intros [] |].
      intros m Hm [<-|[]]. apply in_map_iff in Hm as [x [Hx Hin]].
      pose proof (find_none _ _ Hfind x Hin) as Hno. cbv beta in Hno.
      rewrite Hx, String.eqb_refl in Hno. discriminate.
Qed.

Lemma apply_action_budgets strptime a store :
  budgets_consistent store -> budgets_consistent (apply_action strptime a store).
Proof.
  intros Hc.
  destruct a as [today ok_cat ok_exp title amount cname exp_date | ok eid
                | today ok limit month | ok name amount nd | ok name];
    unfold apply_action.
  - rewrite add_expense_eq.
    destruct (category_by_name _ store); [destruct ok_exp | destruct ok_cat, ok_exp];
      exact Hc.
  - rewrite delete_expense_eq.
    destruct (find _ (expenses store)); [|exact Hc].
    destruct (find _ (categories store)); [destruct ok|]; exact Hc.
  - now apply set_budget_consistent.
  - rewrite add_subscription_eq.
    destruct (parse_date strptime nd); [destruct ok|]; exact Hc.
  - unfold run_session. rewrite get_or_create_category_eq.
    destruct (category_by_name _ store); [|destruct ok]; exact Hc.
Qed.

Lemma run_actions_budgets strptime l store :
  budgets_consistent store -> budgets_consistent (run_actions strptime l store).
Proof.
  revert store. induction l as [|a l IH]; intros store Hc; cbn; [exact Hc|].
  apply IH. now apply apply_action_budgets.
Qed.

Lemma empty_store_budgets : budgets_consistent empty_store.
Proof. split; constructor. Qed.

(** Setting the same budget again changes nothing. *)
Lemma set_budget_idempotent today ok2 limit month store :
  snd (set_budget today ok2 limit month
         (snd (set_budget today true limit month store)))
  = snd (set_budget today true limit month store).
Proof.
  rewrite !set_budget_eq. cbn [snd]. destruct ok2; [|reflexivity]. cbn [snd].
  set (m := month_or_current today month).
  destruct (find (fun b => (Budget.month b =? m)%string) (budgets store))
    as [b|] eqn:Hfind.
  - assert (Hfind' : find (fun x => (Budget.month x =? m)%string)
                       (budgets (update_budget_limit b limit store))
                     = Some (Budget.with_limit limit b)).
    { cbn [budgets update_budget_limit]. rewrite find_map_same.
      - rewrite Hfind. cbn. now rewrite Z.eqb_refl.
      - intros x. now destruct (Budget.id x =? Budget.id b)%Z. }
    rewrite Hfind'. unfold update_budget_limit. cbn. f_equal.
    rewrite map_map. apply map_ext. intros x.
    destruct (Z.eqb_spec (Budget.id x) (Budget.id b)) as [Hid|Hid]; cbn.
    + now rewrite Hid, Z.eqb_refl.
    + destruct (Z.eqb_spec (Budget.id x) (Budget.id b)); [contradiction | reflexivity].
  - remember (Sql.next_id (map Budget.id (budgets store))) as nid eqn:Hnid.
    set (nb := Budget.mk nid m limit).
    assert (Hfind' : find (fun x => (Budget.month x =? m)%string)
                       (budgets (insert_budget nb store)) = Some nb).
    { cbn [budgets insert_budget]. rewrite (find_app_None _ _ _ _ Hfind).
      cbn. now rewrite String.eqb_refl. }
    rewrite Hfind'. unfold update_budget_limit, insert_budget. cbn. f_equal.
    rewrite map_app. cbn. rewrite Z.eqb_refl. f_equal.
    rewrite <- (map_id (budgets store)) at 2. apply map_ext_in. intros x Hx.
    destruct (Z.eqb_spec (Budget.id x) nid) as [Hid|_]; [|reflexivity].
    exfalso. apply (next_id_fresh (map Budget.id (budgets store))).
    rewrite <- Hnid, <- Hid. now apply in_map.
Qed.

(** C8.  On a budget table with one row per month (the empty one, for
    instance), any sequence of calls leaves at most one Budget row per
    month; [set_budget] for a month that has a row rewrites that row's
    limit in place, with the same rows, ids and months otherwise; and
    repeating [set_budget] with the same month and limit leaves the store
    as the first call left it. *)
Theorem set_budget_one_row_per_month (strptime : string -> option Calendar.date)
    (calls : list action) (today : Calendar.date) (ok : bool) (limit : Q)
    (month : string) (store : Store) :
  budgets_consistent store ->
  NoDup (map Budget.month (budgets (run_actions strptime calls store)))
  /\ (forall b,
        find (fun x => (Budget.month x =? month_or_current today month)%string)
          (budgets store) = Some b ->
        budgets (snd (set_budget today true limit month store))
        = map (fun x => if (Budget.month x =? month_or_current today month)%string
                        then Budget.with_limit limit x else x) (budgets store)
        /\ List.length (budgets (snd (set_budget today true limit month store)))
           = List.length (budgets store))
  /\ snd (set_budget today ok limit month
            (snd (set_budget today true limit month store)))
     = snd (set_budget today true limit month store).
Proof.
  intros Hc. split; [|split].
  - now apply run_actions_budgets.
  - intros b Hfind. rewrite set_budget_eq. cbn [snd]. rewrite Hfind.
    rewrite (update_by_month _ _ _ _ Hc Hfind). split; [reflexivity|].
    apply length_map.
  - apply set_budget_idempotent.
Qed.

(** From the empty database: 5000 for January 2024, then 6000 for the same
    month, then 6000 again. *)
Lemma set_budget_one_row_per_month_witness :
  budgets_consistent empty_store
  /\ NoDup (map Budget.month
              (budgets (run_actions Sample.strptime
                          [SetBudget Sample.today true 5000 "2024-01";
                           SetBudget Sample.today true 6000 "";
                           SetBudget Sample.today true 6000 "2024-01"]
                          empty_store))).
Proof.
  split; [exact empty_store_budgets|].
  exact (proj1 (set_budget_one_row_per_month Sample.strptime
                  [SetBudget Sample.today true 5000 "2024-01";
                   SetBudget Sample.today true 6000 "";
                   SetBudget Sample.today true 6000 "2024-01"]
                  Sample.today true 6000 "" empty_store empty_store_budgets)).
Defined.

Example set_budget_overwrites :
  budgets (run_actions Sample.strptime
             [SetBudget Sample.today true 5000 "2024-01";
              SetBudget Sample.today true 6000 ""]
             empty_store)
  = [Budget.mk 1 "2024-01" 6000].
Proof. reflexivity. Qed.

End Budgets.

(** ** The category report *)

Module CategoryReport.

Import Writes SqlFacts AmountFacts.
Local Open Scope Q_scope.

Lemma by_total_desc_iff r1 r2 : by_total_desc r1 r2 = true <-> snd r2 <= snd r1.
Proof. apply Qle_bool_iff. Qed.

Lemma by_total_desc_total r1 r2 :
  by_total_desc r1 r2 = true \/ by_total_desc r2 r1 = true.
Proof.
  rewrite !by_total_desc_iff.
  destruct (Qlt_le_dec (snd r1) (snd r2)) as [H|H]; [right; lra | left; exact H].
Qed.

Lemma by_total_desc_trans r1 r2 r3 :
  by_total_desc r1 r2 = true -> by_total_desc r2 r3 = true ->
  by_total_desc r1 r3 = true.
Proof. rewrite !by_total_desc_iff. lra. Qed.

(** Each expense of the month is joined to exactly one category. *)
Lemma join_covers_month (p : Expense.t -> bool) (cats : list Category.t)
    (exps : list Expense.t) :
  NoDup (map Category.id cats) ->
  Forall (fun e => In (Expense.category_id e) (map Category.id cats)) exps ->
  Sql.sum (map (fun c => Sql.sum (map Expense.amount
                   (filter (fun e => (Category.id c =? Expense.category_id e)%Z && p e)
                      exps))) cats)
  == Sql.sum (map Expense.amount (filter p exps)).
Proof.
  intros Hnd. induction 1 as [|e exps He Hexps IH]; cbn [filter].
  - cbn. apply sum_map_zero.
  - rewrite (sum_map_ext _ _
               (fun c => (if (Category.id c =? Expense.category_id e)%Z
                          then if p e then Expense.amount e else 0 else 0)
                         + Sql.sum (map Expense.amount
                             (filter (fun e' => (Category.id c =? Expense.category_id e')%Z
                                                && p e') exps)))).
    + rewrite sum_map_plus, IH.
      rewrite (sum_indicator _ Category.id (Expense.category_id e) _ _ Hnd He).
      destruct (p e); unfold Sql.sum; cbn; lra.
    + intros c _.
      destruct (Category.id c =? Expense.category_id e)%Z, (p e);
        unfold Sql.sum; cbn; lra.
Qed.

(** Grouping the categories by name and adding up group by group is
    adding up over all categories. *)
Lemma regroup_by_name (f : Category.t -> Q) (keys : list string)
    (cats : list Category.t) :
  NoDup keys ->
  Forall (fun c => In (Category.name c) keys) cats ->
  Sql.sum (map (fun n => Sql.sum (map f
                   (filter (fun c => (Category.name c =? n)%string) cats))) keys)
  == Sql.sum (map f cats).
Proof.
  intros Hnd. induction 1 as [|c cats Hc Hcats IH]; cbn [filter].
  - cbn. apply sum_map_zero.
  - rewrite (sum_map_ext _ _
               (fun n => (if (n =? Category.name c)%string then f c else 0)
                         + Sql.sum (map f
                             (filter (fun c' => (Category.name c' =? n)%string) cats)))).
    + rewrite sum_map_plus, IH.
      rewrite (sum_indicator_string _ (fun n => n) (Category.name c) (f c) keys).
      * unfold Sql.sum; cbn. lra.
      * now rewrite map_id.
      * now rewrite map_id.
    + intros n _. rewrite (String.eqb_sym n).
      destruct (Category.name c =? n)%string; unfold Sql.sum; cbn; lra.
Qed.

(** The rows of the query, before ORDER BY. *)
Lemma category_totals_perm month store :
  Permutation
    (category_totals month store)
    (map (fun n =>
            (n, Sql.sum (flat_map (joined_amounts month store)
                           (filter (fun c => (Category.name c =? n)%string)
                              (categories store)))))
       (Sql.group_keys (map Category.name (categories store)))).
Proof. apply Permutation_sym, order_by_perm. Qed.

(** One row per category name, with the sum of the amounts joined to the
    categories of that name. *)
Lemma category_totals_In month store n t :
  In (n, t) (category_totals month store)
  <-> In n (map Category.name (categories store))
      /\ t = Sql.sum (flat_map (joined_amounts month store)
                        (filter (fun c => (Category.name c =? n)%string)
                           (categories store))).
Proof.
  unfold category_totals. rewrite order_by_In, in_map_iff. split.
  - intros [k [Hk Hin]]. injection Hk as <- <-.
    split; [|reflexivity]. now apply nodup_In in Hin.
  - intros [Hin ->]. exists n. split; [reflexivity|]. now apply nodup_In.
Qed.

(** The per-category totals add up to what was spent in the month. *)
Lemma category_totals_sum month store :
  expenses_consistent store ->
  Sql.sum (map snd (category_totals month store)) == spent_in_month month store.
Proof.
  intros [Hids Hexps].
  rewrite (sum_perm _ _ (Permutation_map snd (category_totals_perm month store))).
  rewrite map_map. cbn [snd].
  rewrite (sum_map_ext _ _
             (fun n => Sql.sum (map (fun c => Sql.sum (joined_amounts month store c))
                                  (filter (fun c => (Category.name c =? n)%string)
                                     (categories store)))))
    by (intros n _; apply sum_flat_map).
  rewrite regroup_by_name.
  - unfold joined_amounts, spent_in_month. apply join_covers_month; [exact Hids|].
    eapply Forall_impl; [|exact Hexps]. cbv beta. tauto.
  - apply NoDup_nodup.
  - apply Forall_forall. intros c Hc. apply nodup_In. now apply in_map.
Qed.

(** No total is negative when every amount is positive. *)
Lemma category_totals_nonneg month store :
  expenses_consistent store ->
  Forall (fun r => 0 <= snd r) (category_totals month store).
Proof.
  intros [_ Hexps].
  eapply Permutation_Forall; [apply Permutation_sym, category_totals_perm|].
  apply Forall_forall. intros r Hr. apply in_map_iff in Hr as [n [<- _]]. cbn [snd].
  apply sum_nonneg, Forall_forall. intros a Ha.
  apply in_flat_map in Ha as [c [_ Ha]]. unfold joined_amounts in Ha.
  apply in_map_iff in Ha as [e [<- He]]. apply filter_In in He as [He _].
  rewrite Forall_forall in Hexps. destruct (Hexps e He) as [_ Hpos]. lra.
Qed.

(** Leaving out the rows that are not positive does not change the sum. *)
Lemma positive_rows_sum (rows : list (string * Q)) :
  Forall (fun r => 0 <= snd r) rows ->
  Sql.sum (map snd (filter (fun r => Qltb 0 (snd r)) rows)) == Sql.sum (map snd rows).
Proof.
  unfold Sql.sum.
  induction 1 as [|r rows Hr Hrows IH]; cbn [filter map fold_right]; [lra|].
  destruct (Qltb 0 (snd r)) eqn:Hpos; cbn [map fold_right]; rewrite IH; [lra|].
  apply Qltb_ge in Hpos. lra.
Qed.

(** No total is negative when every amount is positive, whatever the ids
    and references are. *)
Lemma category_totals_nonneg_amounts month store :
  Forall (fun e => 0 < Expense.amount e) (expenses store) ->
  Forall (fun r => 0 <= snd r) (category_totals month store).
Proof.
  intros Hexps.
  eapply Permutation_Forall; [apply Permutation_sym, category_totals_perm|].
  apply Forall_forall. intros r Hr. apply in_map_iff in Hr as [n [<- _]]. cbn [snd].
  apply sum_nonneg, Forall_forall. intros a Ha.
  apply in_flat_map in Ha as [c [_ Ha]]. unfold joined_amounts in Ha.
  apply in_map_iff in Ha as [e [<- He]]. apply filter_In in He as [He _].
  rewrite Forall_forall in Hexps. specialize (Hexps e He). cbv beta in Hexps. lra.
Qed.

(** C5, as stated, fails: [add_expense] stores an amount of -5 when it is
    called with one, and then the category "food", whose total for
    January 2024 is -5 and not zero, is left out of the report, and the
    printed grand total, 0, is not the month's sum, -5. *)
Lemma category_report_negative_amount :
  category_totals "2024-01" Sample.refund = [("food"%string, -5)]
  /\ ~ (-5 == 0)
  /\ category_report Sample.today "2024-01" Sample.refund = Some ([], 0)
  /\ spent_in_month "2024-01" Sample.refund == -5
  /\ ~ (0 == spent_in_month "2024-01" Sample.refund).
Proof.
  split; [reflexivity|]. split; [discriminate|]. split; [reflexivity|].
  split; [reflexivity | discriminate].
Qed.

(** C5, as amended.  On a store whose expense amounts are all positive,
    for every month: when [category_report] prints rows, they are exactly
    the rows of the per-category query with a non-zero total, they are in
    order of total descending, and the printed grand total is the sum of
    the printed totals, added row by row in the printed order; when it
    prints "No spending", every category total is zero.  (That the grand
    total is also the sum of all amounts of the month is a fact of exact
    arithmetic, [category_totals_sum]; the program adds doubles, and the
    amended claim does not include it.) *)
Theorem category_report_spec (today : Calendar.date) (month : string)
    (store : Store) :
  Forall (fun e => 0 < Expense.amount e) (expenses store) ->
  match category_report today month store with
  | Some (rows, total) =>
      (forall r, In r rows
                 <-> In r (category_totals (month_or_current today month) store)
                     /\ ~ snd r == 0)
      /\ StronglySorted (fun r1 r2 => snd r2 <= snd r1) rows
      /\ total = fold_left (fun running r => running + snd r) rows 0
  | None =>
      Forall (fun r => snd r == 0)
        (category_totals (month_or_current today month) store)
  end.
Proof.
  intros Hpos. unfold category_report. fold (month_or_current today month).
  set (m := month_or_current today month).
  pose proof (category_totals_nonneg_amounts m store Hpos) as Hnonneg.
  destruct (forallb _ (category_totals m store)) eqn:Hzero.
  - apply Forall_forall. intros r Hr. rewrite forallb_forall in Hzero.
    now apply Qeq_bool_eq, Hzero.
  - split; [|split; [|reflexivity]].
    + intros r. rewrite filter_In, Qltb_lt. rewrite Forall_forall in Hnonneg.
      split; intros [Hin Hr]; (split; [exact Hin|]).
      * lra.
      * specialize (Hnonneg r Hin). cbv beta in Hnonneg. lra.
    + apply sorted_filter.
      apply ExpenseQueries.sorted_weaken with (R := Sql.before by_total_desc).
      * intros x y. apply by_total_desc_iff.
      * apply order_by_sorted; [apply by_total_desc_total | apply by_total_desc_trans].
Qed.

Lemma coffee_rent_consistent : expenses_consistent Sample.coffee_rent.
Proof.
  split.
  - cbn. constructor; [intros [H|[]]; discriminate H|].
    constructor; [intros []|constructor].
  - repeat constructor; cbn; auto; reflexivity.
Qed.

(** The scenario Coffee 150 (food), Rent 10000 (housing) in January 2024. *)
Lemma category_report_spec_witness :
  Forall (fun e => 0 < Expense.amount e) (expenses Sample.coffee_rent)
  /\ category_report Sample.today "2024-01" Sample.coffee_rent
     = Some ([("housing"%string, 10000); ("food"%string, 150)], 10150)
  /\ StronglySorted (fun r1 r2 => snd r2 <= snd r1)
       [("housing"%string, 10000); ("food"%string, 150)].
Proof.
  assert (Hpos : Forall (fun e => 0 < Expense.amount e)
                   (expenses Sample.coffee_rent)).
  { repeat constructor. }
  split; [exact Hpos|]. split; [reflexivity|].
  pose proof (category_report_spec Sample.today "2024-01" Sample.coffee_rent Hpos)
    as H.
  change (category_report Sample.today "2024-01" Sample.coffee_rent)
    with (Some ([("housing"%string, 10000); ("food"%string, 150)], 10150)) in H.
  exact (proj1 (proj2 H)).
Defined.

(** *** The menu keeps the data model *)

Lemma add_expense_consistent strptime today ok_cat ok_exp title amount
    category_name exp_date store :
  0 < amount ->
  expenses_consistent store ->
  expenses_consistent
    (snd (add_expense strptime today ok_cat ok_exp title amount category_name
            exp_date store)).
Proof.
  intros Hpos [Hids Hexps]. rewrite add_expense_eq.
  assert (Hfresh : NoDup (map Category.id
                            (categories store ++ [new_category category_name store]))).
  { rewrite map_app. apply NoDup_app; [exact Hids | repeat constructor; intros [] |].
    intros i Hi [<-|[]].
    now apply (next_id_fresh (map Category.id (categories store))). }
  assert (Hgrow : Forall
                    (fun e => In (Expense.category_id e)
                                (map Category.id
                                   (categories store ++ [new_category category_name store]))
                              /\ 0 < Expense.amount e) (expenses store)).
  { eapply Forall_impl; [|exact Hexps]. cbv beta. intros e [Hin Ha].
    split; [|exact Ha]. rewrite map_app. apply in_or_app. now left. }
  destruct (category_by_name (Text.normalize category_name) store) as [cat|] eqn:Hfind.
  - destruct ok_exp; [|now split]. split; [exact Hids|]. cbn.
    apply Forall_app. split; [exact Hexps|]. constructor; [|constructor].
    cbn. split; [|exact Hpos].
    apply find_some in Hfind as [Hin _]. now apply in_map.
  - cbv zeta. destruct ok_cat; [|now split].
    destruct ok_exp; [|now split]. split; [exact Hfresh|]. cbn.
    apply Forall_app. split; [exact Hgrow|]. constructor; [|constructor].
    cbn [Expense.category_id Expense.amount new_expense]. split; [|exact Hpos].
    rewrite map_app. apply in_or_app. right. now left.
Qed.

Lemma delete_expense_consistent ok expense_id store :
  expenses_consistent store ->
  expenses_consistent (snd (delete_expense ok expense_id store)).
Proof.
  intros Hc. rewrite delete_expense_eq.
  destruct (find _ (expenses store)) as [exp|]; [|exact Hc].
  destruct (find _ (categories store)) as [cat|]; [|exact Hc].
  destruct ok; [|exact Hc]. destruct Hc as [Hids Hexps]. split; [exact Hids|].
  cbn. apply Forall_forall. intros e He. apply filter_In in He as [He _].
  rewrite Forall_forall in Hexps. now apply Hexps.
Qed.

(** Every store that the menu can build satisfies the data model that the
    category report relies on. *)
Lemma reachable_consistent strptime float_of_string int_of_string store :
  reachable strptime float_of_string int_of_string store ->
  expenses_consistent store.
Proof.
  induction 1 as [| store today ok_cat ok_exp title_in amount_in category_in date_in _ IH
                  | store ok id_in _ IH
                  | store today ok limit_in _ IH
                  | store ok name_in amount_in date_in _ IH].
  - split; constructor.
  - unfold menu_add_expense.
    destruct (Text.strip title_in =? "")%string; [exact IH|].
    destruct (float_of_string amount_in) as [amount|]; [|exact IH].
    destruct (Qle_bool amount 0) eqn:Hle; [exact IH|].
    destruct (Text.strip category_in =? "")%string; [exact IH|].
    apply add_expense_consistent; [|exact IH].
    apply Qltb_lt. unfold Qltb. now rewrite Hle.
  - unfold menu_delete_expense.
    destruct (int_of_string id_in); [|exact IH]. now apply delete_expense_consistent.
  - unfold menu_set_budget.
    destruct (float_of_string limit_in) as [limit|]; [|exact IH].
    destruct (Qle_bool limit 0); [exact IH|].
    rewrite set_budget_eq.
    destruct ok; [destruct (find _ (budgets store))|]; exact IH.
  - unfold menu_add_subscription.
    destruct (Text.strip name_in =? "")%string; [exact IH|].
    destruct (float_of_string amount_in) as [amount|]; [|exact IH].
    destruct (Qle_bool amount 0); [exact IH|].
    rewrite add_subscription_eq.
    destruct (parse_date strptime (Text.strip date_in)); [destruct ok|]; exact IH.
Qed.

End CategoryReport.

(** ** Normal forms of names *)

Module NormalForm.

Import Text TextFacts.

Lemma lower_char_idempotent c : lower_char (lower_char c) = lower_char c.
Proof. destruct c as [[] [] [] [] [] [] [] []]; reflexivity. Qed.

Lemma lower_idempotent s : lower (lower s) = lower s.
Proof.
  induction s as [|c s IH]; cbn; [reflexivity|].
  now rewrite lower_char_idempotent, IH.
Qed.

Lemma lstrip_idempotent s : lstrip (lstrip s) = lstrip s.
Proof.
  induction s as [|c s IH]; cbn; [reflexivity|].
  destruct (isspace c) eqn:Hc; [exact IH|]. cbn. now rewrite Hc.
Qed.

Lemma rstrip_cons c s :
  rstrip (String c s)
  = match rstrip s with
    | EmptyString => if isspace c then EmptyString else String c EmptyString
    | r => String c r
    end.
Proof. reflexivity. Qed.

Lemma rstrip_idempotent s : rstrip (rstrip s) = rstrip s.
Proof.
  induction s as [|c s IH]; [reflexivity|]. rewrite rstrip_cons.
  destruct (rstrip s) as [|d r] eqn:Hr.
  - destruct (isspace c) eqn:Hc; [reflexivity|]. cbn. now rewrite Hc.
  - rewrite rstrip_cons, IH. reflexivity.
Qed.

Lemma lstrip_rstrip s : lstrip (rstrip s) = rstrip (lstrip s).
Proof.
  induction s as [|c s IH]; [reflexivity|]. rewrite rstrip_cons. cbn [lstrip].
  destruct (isspace c) eqn:Hc.
  - rewrite <- IH. destruct (rstrip s) as [|d r]; cbn [lstrip]; [reflexivity|].
    now rewrite Hc.
  - rewrite rstrip_cons. destruct (rstrip s) as [|d r]; cbn [lstrip]; now rewrite Hc.
Qed.

Lemma strip_idempotent s : strip (strip s) = strip s.
Proof.
  unfold strip. now rewrite lstrip_rstrip, rstrip_idempotent, lstrip_idempotent.
Qed.

Lemma lower_empty s : lower s = EmptyString -> s = EmptyString.
Proof. destruct s; [reflexivity | discriminate]. Qed.

(** Normalizing twice is normalizing once: the names that
    [get_or_create_category] stores and compares are fixed points of
    [strip().lower()]. *)
Lemma normalize_idempotent (name : string) :
  normalize (normalize name) = normalize name.
Proof.
  unfold normalize.
  rewrite strip_lower, lower_idempotent.
  now rewrite strip_idempotent.
Qed.

(** A stripped, non-empty text keeps a non-empty normal form. *)
Lemma normalize_strip_nonempty s :
  strip s <> EmptyString -> normalize (strip s) <> EmptyString.
Proof.
  unfold normalize. rewrite strip_idempotent. intros H Hl.
  apply H. now apply lower_empty.
Qed.

End NormalForm.

(** ** What every call keeps true of the category table *)

Module CategoryInvariants.

Import Writes SqlFacts.

(** A call leaves the category table alone or adds, at its end, the new
    category of a name that was not there. *)
Lemma apply_action_categories_step strptime a store :
  categories (apply_action strptime a store) = categories store
  \/ exists name,
       category_by_name (Text.normalize name) store = None
       /\ categories (apply_action strptime a store)
          = (categories store ++ [new_category name store])%list.
Proof.
  destruct a as [today ok_cat ok_exp title amount cname exp_date | ok eid
                | today ok limit month | ok name amount nd | ok name];
    unfold apply_action.
  - rewrite add_expense_eq.
    destruct (category_by_name _ store) eqn:Hfind;
      [destruct ok_exp | destruct ok_cat, ok_exp]; cbn; eauto.
  - rewrite delete_expense_eq.
    destruct (find _ (expenses store)); [|now left].
    destruct (find _ (categories store)); [destruct ok|]; now left.
  - rewrite set_budget_eq.
    destruct ok; [destruct (find _ (budgets store))|]; now left.
  - rewrite add_subscription_eq.
    destruct (parse_date strptime nd); [destruct ok|]; now left.
  - unfold run_session. rewrite get_or_create_category_eq.
    destruct (category_by_name _ store) eqn:Hfind; [|destruct ok]; cbn; eauto.
Qed.

Lemma new_category_consistent name store :
  category_by_name (Text.normalize name) store = None ->
  categories_consistent store ->
  NoDup (map Category.id (categories store ++ [new_category name store]))
  /\ NoDup (map Category.name (categories store ++ [new_category name store]))
  /\ Forall (fun c => Text.normalize (Category.name c) = Category.name c)
       (categories store ++ [new_category name store]).
Proof.
  intros Hfind (Hids & Hnames & Hnorm). rewrite !map_app. cbn [map].
  split; [|split].
  - apply NoDup_app; [exact Hids | repeat constructor; intros [] |].
    intros i Hi [<-|[]].
    now apply (next_id_fresh (map Category.id (categories store))).
  - apply NoDup_app; [exact Hnames | repeat constructor; intros [] |].
    intros n Hn [<-|[]]. apply in_map_iff in Hn as [c [Hc Hin]].
    pose proof (find_none _ _ Hfind c Hin) as Hno. cbv beta in Hno.
    unfold new_category in Hc. cbn in Hc.
    rewrite Hc, String.eqb_refl in Hno. discriminate.
  - apply Forall_app. split; [exact Hnorm|]. constructor; [|constructor].
    apply NormalForm.normalize_idempotent.
Qed.

Lemma apply_action_categories_consistent strptime a store :
  categories_consistent store -> categories_consistent (apply_action strptime a store).
Proof.
  intros Hc. unfold categories_consistent.
  destruct (apply_action_categories_step strptime a store) as [->|(name & Hfind & ->)];
    [exact Hc | now apply new_category_consistent].
Qed.

(** X1.  Whatever is called, in whatever order and with whatever commit
    outcomes, the category table keeps distinct ids and distinct names, and
    every stored name is a fixed point of [strip().lower()]: the UNIQUE
    constraint on [categories.name] is never put to the test. *)
Theorem categories_stay_consistent (strptime : string -> option Calendar.date)
    (calls : list action) (store : Store) :
  categories_consistent store ->
  categories_consistent (run_actions strptime calls store).
Proof.
  revert store. induction calls as [|a calls IH]; intros store Hc; cbn; [exact Hc|].
  apply IH. now apply apply_action_categories_consistent.
Qed.

Lemma empty_store_categories : categories_consistent empty_store.
Proof. repeat split; constructor. Qed.

Lemma categories_stay_consistent_witness :
  categories_consistent empty_store
  /\ categories_consistent
       (run_actions Sample.strptime
          [AddExpense Sample.today true false "Coffee" 150 " Food " "";
           ResolveCategory true "FOOD";
           AddExpense Sample.today true true "Rent" 10000 "Housing" ""]
          empty_store).
Proof.
  split; [exact empty_store_categories|].
  apply (categories_stay_consistent Sample.strptime _ empty_store).
  exact empty_store_categories.
Defined.

Lemma find_first_match A (p : A -> bool) l x :
  In x l -> p x = true -> exists y, find p l = Some y.
Proof.
  intros Hin Hp. destruct (find p l) as [y|] eqn:Hfind; [now exists y|].
  rewrite (find_none _ _ Hfind x Hin) in Hp. discriminate.
Qed.

(** X2.  Looking a stored category up by its own stored name finds that
    very category and writes nothing, whatever the commit outcome would
    be. *)
Theorem stored_name_resolves (ok : bool) (store : Store) (c : Category.t) :
  categories_consistent store ->
  In c (categories store) ->
  get_or_create_category ok (Category.name c) (open_session store)
  = (Ok c, open_session store).
Proof.
  intros (_ & Hnames & Hnorm) Hin. rewrite get_or_create_category_eq.
  rewrite Forall_forall in Hnorm. rewrite (Hnorm c Hin).
  destruct (find_first_match _ (fun x => (Category.name x =? Category.name c)%string)
              (categories store) c Hin (String.eqb_refl _)) as [y Hy].
  unfold category_by_name. rewrite Hy.
  apply find_some in Hy as [Hyin Hyname]. apply String.eqb_eq in Hyname.
  now rewrite (Budgets.NoDup_map_inj _ _ Category.name _ y c Hnames Hyin Hin Hyname).
Qed.

Lemma stored_name_resolves_witness :
  categories_consistent Sample.coffee_rent
  /\ In (Category.mk 2 "housing") (categories Sample.coffee_rent)
  /\ get_or_create_category false "housing" (open_session Sample.coffee_rent)
     = (Ok (Category.mk 2 "housing"), open_session Sample.coffee_rent).
Proof.
  assert (Hc : categories_consistent Sample.coffee_rent).
  { apply (apply_action_categories_consistent Sample.strptime
             (AddExpense Sample.today true true "Rent" 10000 "Housing" "2024-01-01")).
    apply (apply_action_categories_consistent Sample.strptime
             (AddExpense Sample.today true true "Coffee" 150 "Food" "2024-01-05")).
    exact empty_store_categories. }
  split; [exact Hc|]. split; [right; left; reflexivity|].
  apply (stored_name_resolves false Sample.coffee_rent (Category.mk 2 "housing") Hc).
  right. left. reflexivity.
Defined.

End CategoryInvariants.

(** ** Deleting expenses *)

Module DeleteExpense.

Import Writes SqlFacts.
Local Open Scope Z_scope.

Lemma find_by_id (l : list Expense.t) (e : Expense.t) :
  NoDup (map Expense.id l) -> In e l ->
  find (fun x => Expense.id x =? Expense.id e) l = Some e.
Proof.
  intros Hnd Hin.
  destruct (CategoryInvariants.find_first_match _
              (fun x => Expense.id x =? Expense.id e) l e Hin (Z.eqb_refl _))
    as [y Hy].
  rewrite Hy. apply find_some in Hy as [Hyin Hyid]. apply Z.eqb_eq in Hyid.
  now rewrite (Budgets.NoDup_map_inj _ _ Expense.id _ y e Hnd Hyin Hin Hyid).
Qed.

Lemma find_absent_id (l : list Expense.t) (i : Z) :
  ~ In i (map Expense.id l) -> find (fun x => Expense.id x =? i) l = None.
Proof.
  intros Hno. destruct (find _ l) as [y|] eqn:Hy; [|reflexivity].
  apply find_some in Hy as [Hyin Hyid]. apply Z.eqb_eq in Hyid.
  exfalso. apply Hno. rewrite <- Hyid. now apply in_map.
Qed.

Lemma filter_out_absent (l : list Expense.t) (i : Z) :
  ~ In i (map Expense.id l) ->
  filter (fun x => negb (Expense.id x =? i)) l = l.
Proof.
  induction l as [|x l IH]; cbn; intros Hno; [reflexivity|].
  destruct (Z.eqb_spec (Expense.id x) i) as [Heq|_]; cbn.
  - exfalso. apply Hno. now left.
  - rewrite IH; [reflexivity|]. intros H. apply Hno. now right.
Qed.

(** X3.  Deleting an id that fits a 64-bit integer and that no expense
    carries reports "not found" and leaves the store exactly as it was,
    whatever the commit outcome would have been. *)
Theorem delete_expense_missing (ok : bool) (expense_id : Z) (store : Store) :
  fits_int64 expense_id ->
  ~ In expense_id (map Expense.id (expenses store)) ->
  delete_expense ok expense_id store = (Ok (NotFound expense_id), store).
Proof.
  intros _ Hno. rewrite delete_expense_eq.
  now rewrite (find_absent_id _ _ Hno).
Qed.

Lemma delete_expense_missing_witness :
  fits_int64 7
  /\ ~ In 7 (map Expense.id (expenses Sample.coffee_rent))
  /\ delete_expense true 7 Sample.coffee_rent = (Ok (NotFound 7), Sample.coffee_rent).
Proof.
  assert (Hfits : fits_int64 7) by (unfold fits_int64; lia).
  assert (Hno : ~ In 7 (map Expense.id (expenses Sample.coffee_rent))).
  { cbn. intros [H|[H|[]]]; discriminate H. }
  split; [exact Hfits|]. split; [exact Hno|].
  exact (delete_expense_missing true 7 Sample.coffee_rent Hfits Hno).
Defined.

(** X4.  On a store with distinct ids and valid category references,
    deleting an existing expense (the commit accepted) reports its title,
    amount and category name, removes that row and no other, keeps the
    order of the rest and leaves the other three tables alone; deleting the
    same id again reports "not found". *)
Theorem delete_expense_removes (store : Store) (e : Expense.t) :
  references_consistent store ->
  In e (expenses store) ->
  exists cat,
    In cat (categories store)
    /\ Category.id cat = Expense.category_id e
    /\ fst (delete_expense true (Expense.id e) store)
       = Ok (Deleted (Expense.title e) (Expense.amount e) (Category.name cat))
    /\ expenses (snd (delete_expense true (Expense.id e) store))
       = filter (fun x => negb (Expense.id x =? Expense.id e)) (expenses store)
    /\ (forall x, In x (expenses (snd (delete_expense true (Expense.id e) store)))
                  <-> In x (expenses store) /\ x <> e)
    /\ categories (snd (delete_expense true (Expense.id e) store)) = categories store
    /\ budgets (snd (delete_expense true (Expense.id e) store)) = budgets store
    /\ subscriptions (snd (delete_expense true (Expense.id e) store))
       = subscriptions store
    /\ forall ok,
         delete_expense ok (Expense.id e)
           (snd (delete_expense true (Expense.id e) store))
         = (Ok (NotFound (Expense.id e)),
            snd (delete_expense true (Expense.id e) store)).
Proof.
  intros (Hcats & Hexps & Hrefs) Hin.
  rewrite delete_expense_eq, (find_by_id _ _ Hexps Hin).
  rewrite Forall_forall in Hrefs. pose proof (Hrefs e Hin) as Hcat.
  apply in_map_iff in Hcat as [c0 [Hc0 Hc0in]].
  destruct (CategoryInvariants.find_first_match _
              (fun c => Category.id c =? Expense.category_id e) (categories store)
              c0 Hc0in (proj2 (Z.eqb_eq _ _) Hc0)) as [cat Hfind].
  rewrite Hfind. apply find_some in Hfind as [Hcatin Hcatid].
  apply Z.eqb_eq in Hcatid.
  exists cat. cbn [fst snd remove_expense expenses categories budgets subscriptions].
  split; [exact Hcatin|]. split; [exact Hcatid|].
  split; [reflexivity|]. split; [reflexivity|]. split.
  - intros x. rewrite filter_In. split.
    + intros [Hx Hne]. split; [exact Hx|]. intros ->.
      rewrite Z.eqb_refl in Hne. discriminate.
    + intros [Hx Hne]. split; [exact Hx|].
      destruct (Z.eqb_spec (Expense.id x) (Expense.id e)) as [Heq|_]; [|reflexivity].
      exfalso. apply Hne.
      exact (Budgets.NoDup_map_inj _ _ Expense.id _ x e Hexps Hx Hin Heq).
  - split; [reflexivity|]. split; [reflexivity|]. split; [reflexivity|].
    intros ok. rewrite delete_expense_eq. cbn [expenses].
    rewrite find_absent_id; [reflexivity|].
    intros Hid. apply in_map_iff in Hid as [x [Hxid Hx]].
    apply filter_In in Hx as [_ Hx]. rewrite Hxid, Z.eqb_refl in Hx. discriminate.
Qed.

Lemma coffee_rent_references : references_consistent Sample.coffee_rent.
Proof.
  split; [|split].
  - cbn. constructor; [intros [H|[]]; discriminate H|].
    constructor; [intros []|constructor].
  - cbn. constructor; [intros [H|[]]; discriminate H|].
    constructor; [intros []|constructor].
  - constructor; [cbn; auto|]. constructor; [cbn; auto|]. constructor.
Qed.

Lemma delete_expense_removes_witness :
  references_consistent Sample.coffee_rent
  /\ In (Expense.mk 1 "Coffee" 150 738890 1) (expenses Sample.coffee_rent)
  /\ map Expense.id (expenses (snd (delete_expense true 1 Sample.coffee_rent))) = [2].
Proof.
  split; [exact coffee_rent_references|]. split; [left; reflexivity|].
  destruct (delete_expense_removes Sample.coffee_rent
              (Expense.mk 1 "Coffee" 150 738890 1) coffee_rent_references
              (or_introl eq_refl))
    as (cat & _ & _ & _ & Hrows & _).
  cbn [Expense.id] in Hrows. rewrite Hrows. reflexivity.
Defined.

(** X5.  An expense that was just added can be deleted again: with all
    commits accepted, [add_expense] followed by [delete_expense] of the new
    id reports the stripped title and the amount, and the expense table is
    exactly what it was before the two calls. *)
Theorem add_then_delete (strptime : string -> option Calendar.date)
    (today : Calendar.date) (title : string) (amount : Q)
    (category_name exp_date : string) (store : Store) :
  exists category,
    fst (delete_expense true (Sql.next_id (map Expense.id (expenses store)))
           (snd (add_expense strptime today true true title amount category_name
                   exp_date store)))
    = Ok (Deleted (Text.strip title) amount category)
    /\ expenses
         (snd (delete_expense true (Sql.next_id (map Expense.id (expenses store)))
                 (snd (add_expense strptime today true true title amount
                         category_name exp_date store))))
       = expenses store.
Proof.
  rewrite add_expense_eq.
  set (nid := Sql.next_id (map Expense.id (expenses store))).
  assert (Hfresh : ~ In nid (map Expense.id (expenses store)))
    by apply next_id_fresh.
  destruct (category_by_name (Text.normalize category_name) store) as [cat|] eqn:Hcat;
    cbv zeta; cbn [snd]; rewrite delete_expense_eq;
    cbn [expenses insert_expense insert_category categories].
  - rewrite (find_app_None _ _ _ _ (find_absent_id _ _ Hfresh)).
    unfold new_expense. cbn [find Expense.id]. fold nid. rewrite Z.eqb_refl.
    cbn [Expense.category_id].
    apply find_some in Hcat as [Hcatin _].
    destruct (CategoryInvariants.find_first_match _
                (fun c => Category.id c =? Category.id cat) (categories store)
                cat Hcatin (Z.eqb_refl _)) as [c1 Hc1].
    rewrite Hc1. exists (Category.name c1).
    cbn [fst snd remove_expense expenses Expense.title Expense.amount Expense.id].
    split; [reflexivity|]. cbn [expenses insert_expense insert_category].
    rewrite filter_app. cbn [filter Expense.id]. rewrite Z.eqb_refl. cbn [negb].
    rewrite app_nil_r. now apply filter_out_absent.
  - rewrite (find_app_None _ _ _ _ (find_absent_id _ _ Hfresh)).
    unfold new_expense. cbn [find Expense.id]. fold nid. rewrite Z.eqb_refl.
    cbn [Expense.category_id].
    destruct (CategoryInvariants.find_first_match _
                (fun c => Category.id c =? Category.id (new_category category_name store))
                (categories store ++ [new_category category_name store])
                (new_category category_name store)
                (in_or_app _ _ _ (or_intror (in_eq _ _)))
                (Z.eqb_refl _)) as [c1 Hc1].
    rewrite Hc1. exists (Category.name c1).
    cbn [fst snd remove_expense expenses Expense.title Expense.amount Expense.id].
    split; [reflexivity|]. cbn [expenses insert_expense insert_category].
    rewrite filter_app. cbn [filter Expense.id]. rewrite Z.eqb_refl. cbn [negb].
    rewrite app_nil_r. now apply filter_out_absent.
Qed.

End DeleteExpense.

(** ** Ids and references *)

Module References.

Import Writes SqlFacts.
Local Open Scope Z_scope.

Lemma add_expense_references strptime today ok_cat ok_exp title amount
    category_name exp_date store :
  references_consistent store ->
  references_consistent
    (snd (add_expense strptime today ok_cat ok_exp title amount category_name
            exp_date store)).
Proof.
  intros (Hcats & Hexps & Hrefs). rewrite add_expense_eq.
  assert (Hfresh : NoDup (map Category.id
                            (categories store ++ [new_category category_name store]))).
  { rewrite map_app. apply NoDup_app; [exact Hcats | repeat constructor; intros [] |].
    intros i Hi [<-|[]].
    now apply (next_id_fresh (map Category.id (categories store))). }
  assert (Hgrow : Forall
                    (fun e => In (Expense.category_id e)
                                (map Category.id
                                   (categories store ++ [new_category category_name store])))
                    (expenses store)).
  { eapply Forall_impl; [|exact Hrefs]. cbv beta. intros e Hin.
    rewrite map_app. apply in_or_app. now left. }
  assert (Hnew : forall cat,
             NoDup (map Expense.id
                      (expenses store
                       ++ [new_expense strptime today title amount exp_date cat store]))).
  { intros cat. rewrite map_app.
    apply NoDup_app; [exact Hexps | repeat constructor; intros [] |].
    intros i Hi [<-|[]].
    now apply (next_id_fresh (map Expense.id (expenses store))). }
  destruct (category_by_name (Text.normalize category_name) store) as [cat|] eqn:Hfind.
  - destruct ok_exp; [|now repeat split].
    split; [exact Hcats|]. split; [apply Hnew|]. cbn.
    apply Forall_app. split; [exact Hrefs|]. constructor; [|constructor].
    cbn. apply find_some in Hfind as [Hin _]. now apply in_map.
  - cbv zeta. destruct ok_cat; [|now repeat split].
    destruct ok_exp; [|now repeat split].
    split; [exact Hfresh|]. split; [apply Hnew|]. cbn.
    apply Forall_app. split; [exact Hgrow|]. constructor; [|constructor].
    cbn [Expense.category_id new_expense].
    rewrite map_app. apply in_or_app. right. now left.
Qed.

Lemma NoDup_map_filter A B (f : A -> B) (p : A -> bool) l :
  NoDup (map f l) -> NoDup (map f (filter p l)).
Proof.
  induction l as [|x l IH]; cbn; intros Hnd; [constructor|].
  inversion Hnd as [|? ? Hx Hl]; subst.
  destruct (p x); cbn; [|now apply IH]. constructor; [|now apply IH].
  intros Hin. apply Hx. apply in_map_iff in Hin as [y [Hy Hyin]].
  apply filter_In in Hyin as [Hyin _]. rewrite <- Hy. now apply in_map.
Qed.

Lemma delete_expense_references ok expense_id store :
  references_consistent store ->
  references_consistent (snd (delete_expense ok expense_id store)).
Proof.
  intros Hc. rewrite delete_expense_eq.
  destruct (find _ (expenses store)) as [exp|]; [|exact Hc].
  destruct (find _ (categories store)) as [cat|]; [|exact Hc].
  destruct ok; [|exact Hc]. destruct Hc as (Hcats & Hexps & Hrefs).
  split; [exact Hcats|]. cbn. split; [now apply NoDup_map_filter|].
  apply Forall_forall. intros e He. apply filter_In in He as [He _].
  rewrite Forall_forall in Hrefs. now apply Hrefs.
Qed.

Lemma apply_action_references strptime a store :
  references_consistent store -> references_consistent (apply_action strptime a store).
Proof.
  intros Hc.
  destruct a as [today ok_cat ok_exp title amount cname exp_date | ok eid
                | today ok limit month | ok name amount nd | ok name];
    unfold apply_action.
  - now apply add_expense_references.
  - now apply delete_expense_references.
  - rewrite set_budget_eq.
    destruct ok; [destruct (find _ (budgets store))|]; exact Hc.
  - rewrite add_subscription_eq.
    destruct (parse_date strptime nd); [destruct ok|]; exact Hc.
  - unfold run_session. rewrite get_or_create_category_eq.
    destruct (category_by_name _ store); [exact Hc|]. destruct ok; [|exact Hc].
    destruct Hc as (Hcats & Hexps & Hrefs). unfold references_consistent.
    cbn [snd close_session open_session db categories expenses insert_category].
    split; [|split; [exact Hexps|]].
    + rewrite map_app. apply NoDup_app; [exact Hcats | repeat constructor; intros [] |].
      intros i Hi [<-|[]].
      now apply (next_id_fresh (map Category.id (categories store))).
    + eapply Forall_impl; [|exact Hrefs]. cbv beta. intros e Hin.
      rewrite map_app. apply in_or_app. now left.
Qed.

(** X6.  Whatever is called, in whatever order and with whatever commit
    outcomes, category ids stay distinct, expense ids stay distinct and
    every expense keeps pointing at an existing category: no call stores a
    dangling [category_id] or reuses the id of a row that is still there. *)
Theorem references_stay_consistent (strptime : string -> option Calendar.date)
    (calls : list action) (store : Store) :
  references_consistent store ->
  references_consistent (run_actions strptime calls store).
Proof.
  revert store. induction calls as [|a calls IH]; intros store Hc; cbn; [exact Hc|].
  apply IH. now apply apply_action_references.
Qed.

Lemma empty_store_references : references_consistent empty_store.
Proof. repeat split; constructor. Qed.

Lemma references_stay_consistent_witness :
  references_consistent empty_store
  /\ references_consistent
       (run_actions Sample.strptime
          [AddExpense Sample.today true true "Coffee" 150 "Food" "";
           AddExpense Sample.today true true "Tea" 10 "Food" "";
           DeleteExpense true 1;
           AddExpense Sample.today true true "Rent" 10000 "Housing" ""]
          empty_store).
Proof.
  split; [exact empty_store_references|].
  apply (references_stay_consistent Sample.strptime _ empty_store).
  exact empty_store_references.
Defined.



(** Without a category for the expense, [delete_expense] does raise, and
    nothing is deleted. *)
Example delete_expense_dangling :
  delete_expense true 1
    {| categories := []; expenses := [Expense.mk 1 "Coffee" 150 738890 1];
       budgets := []; subscriptions := [] |}
  = (Raise AttributeError,
     {| categories := []; expenses := [Expense.mk 1 "Coffee" 150 738890 1];
        budgets := []; subscriptions := [] |}).
Proof. reflexivity. Qed.

End References.

(** ** More on listing and searching *)

Module Listing.

Import Writes SqlFacts.
Local Open Scope Z_scope.

Section Sorting.

Variable A : Type.
Variables leb leb' : A -> A -> bool.

(** A row that no earlier row may precede comes out first. *)
Lemma order_by_last_first (l : list A) (e : A) :
  Forall (fun x => leb x e = false) l ->
  Sql.order_by leb (l ++ [e]) = e :: Sql.order_by leb l.
Proof.
  induction 1 as [|x l Hx Hl IH]; [reflexivity|].
  cbn [app Sql.order_by]. rewrite IH. cbn [Sql.insert_row]. now rewrite Hx.
Qed.

Lemma insert_row_agree (x : A) (l : list A) :
  Forall (fun y => leb x y = leb' x y) l ->
  Sql.insert_row leb x l = Sql.insert_row leb' x l.
Proof.
  induction 1 as [|y l Hy Hl IH]; [reflexivity|].
  cbn [Sql.insert_row]. rewrite Hy, IH. reflexivity.
Qed.

End Sorting.

(** X8.  Raising the limit only adds rows at the end: for limits that fit
    a 64-bit integer, 0 <= N, and M either at least N or negative (no cap),
    [list_expenses(limit=N)] is the first N rows of
    [list_expenses(limit=M)]. *)
Theorem list_expenses_prefix (N M : Z) (store : Store) :
  fits_int64 N -> fits_int64 M ->
  0 <= N ->
  N <= M \/ M < 0 ->
  list_expenses N store = firstn (Z.to_nat N) (list_expenses M store).
Proof.
  intros _ _ HN HM. unfold list_expenses, Sql.limit.
  destruct (Z.ltb_spec N 0) as [H|_]; [lia|].
  destruct (Z.ltb_spec M 0) as [_|HM0]; [reflexivity|].
  rewrite firstn_firstn. f_equal. lia.
Qed.

Lemma list_expenses_prefix_witness :
  fits_int64 1 /\ fits_int64 15 /\ 0 <= 1 /\ (1 <= 15 \/ 15 < 0)
  /\ list_expenses 1 Sample.coffee_tea
     = firstn (Z.to_nat 1) (list_expenses 15 Sample.coffee_tea).
Proof.
  split; [unfold fits_int64; lia|]. split; [unfold fits_int64; lia|].
  split; [lia|]. split; [left; lia|].
  apply (list_expenses_prefix 1 15 Sample.coffee_tea);
    [unfold fits_int64; lia | unfold fits_int64; lia | lia | left; lia].
Defined.

(** X9.  An expense that was just added (all commits accepted) and whose
    date is not before the date of any stored expense heads the listing:
    for a limit N >= 1 that fits a 64-bit integer,
    [list_expenses(limit=N)] is the new row followed by what
    [list_expenses(limit=N-1)] gave before.  On a shared date the new row
    wins, having the larger id. *)
Theorem newest_on_top (strptime : string -> option Calendar.date)
    (today : Calendar.date) (title : string) (amount : Q)
    (category_name exp_date : string) (N : Z) (store : Store) :
  Forall (fun x => Expense.date x
                   <= match parse_date strptime exp_date with
                      | Some d => d
                      | None => today
                      end) (expenses store) ->
  1 <= N ->
  fits_int64 N ->
  exists e,
    expenses (snd (add_expense strptime today true true title amount category_name
                     exp_date store)) = (expenses store ++ [e])%list
    /\ Expense.title e = Text.strip title
    /\ Expense.amount e = amount
    /\ Expense.date e = match parse_date strptime exp_date with
                        | Some d => d
                        | None => today
                        end
    /\ list_expenses N
         (snd (add_expense strptime today true true title amount category_name
                 exp_date store))
       = e :: list_expenses (N - 1) store.
Proof.
  intros Hdates HN _.
  assert (Hkey : forall cat,
            list_expenses N
              (insert_expense (new_expense strptime today title amount exp_date cat store)
                 store)
            = new_expense strptime today title amount exp_date cat store
              :: list_expenses (N - 1) store).
  { intros cat. unfold list_expenses. cbn [expenses insert_expense].
    rewrite order_by_last_first.
    - unfold Sql.limit.
      destruct (Z.ltb_spec N 0) as [H|_]; [lia|].
      destruct (Z.ltb_spec (N - 1) 0) as [H|_]; [lia|].
      replace (Z.to_nat N) with (S (Z.to_nat (N - 1))) by lia. reflexivity.
    - pose proof (next_id_above (map Expense.id (expenses store))) as Hids.
      rewrite Forall_forall in *. intros x Hx.
      specialize (Hdates x Hx). cbv beta in Hdates.
      specialize (Hids (Expense.id x) (in_map _ _ _ Hx)). cbv beta in Hids.
      unfold by_date_desc_id_desc, new_expense. cbn [Expense.date Expense.id].
      apply orb_false_iff. split; [apply Z.ltb_ge; exact Hdates|].
      apply andb_false_iff. right. apply Z.leb_gt. exact Hids. }
  rewrite add_expense_eq.
  destruct (category_by_name (Text.normalize category_name) store) as [cat|];
    cbv zeta; cbn [snd].
  - exists (new_expense strptime today title amount exp_date cat store).
    repeat split. apply Hkey.
  - exists (new_expense strptime today title amount exp_date
              (new_category category_name store) store).
    repeat split. apply (Hkey (new_category category_name store)).
Qed.

Lemma newest_on_top_witness :
  Forall (fun x => Expense.date x
                   <= match parse_date Sample.strptime "2024-01-05" with
                      | Some d => d
                      | None => Sample.today
                      end) (expenses Sample.coffee)
  /\ 1 <= 15
  /\ fits_int64 15
  /\ map Expense.title (list_expenses 15 Sample.coffee_tea)
     = ["Tea"%string; "Coffee"%string].
Proof.
  assert (H : Forall (fun x => Expense.date x
                               <= match parse_date Sample.strptime "2024-01-05" with
                                  | Some d => d
                                  | None => Sample.today
                                  end) (expenses Sample.coffee)).
  { constructor; [cbn; lia | constructor]. }
  split; [exact H|]. split; [lia|]. split; [unfold fits_int64; lia|].
  destruct (newest_on_top Sample.strptime Sample.today "Tea" 10 "Food" "2024-01-05"
              15 Sample.coffee H ltac:(lia) ltac:(unfold fits_int64; lia))
    as (e & _ & Htitle & _ & _ & Hlist).
  unfold Sample.coffee_tea. rewrite Hlist. cbn [map]. rewrite Htitle. reflexivity.
Defined.

(** Where no two rows share a date, the two ORDER BY keys sort alike. *)
Lemma order_by_without_ties (l : list Expense.t) :
  NoDup (map Expense.date l) ->
  Sql.order_by by_date_desc l = Sql.order_by by_date_desc_id_desc l.
Proof.
  induction l as [|x l IH]; cbn [map Sql.order_by]; intros Hnd; [reflexivity|].
  inversion Hnd as [|? ? Hx Hl]; subst. rewrite (IH Hl).
  apply insert_row_agree. apply Forall_forall. intros y Hy.
  apply order_by_In in Hy.
  assert (Hne : Expense.date y <> Expense.date x).
  { intros Heq. apply Hx. rewrite <- Heq. now apply in_map. }
  unfold by_date_desc, by_date_desc_id_desc.
  destruct (Z.leb_spec (Expense.date y) (Expense.date x)),
           (Z.ltb_spec (Expense.date y) (Expense.date x)),
           (Z.eqb_spec (Expense.date y) (Expense.date x)); cbn; trivial; lia.
Qed.

(** X10.  When no two expenses share a date, [search_expenses] does return
    its rows by date descending, id descending for every pair of bounds,
    and without bounds it returns exactly the rows of an uncapped
    [list_expenses], in the same order. *)
Theorem search_matches_list_without_ties (strptime : string -> option Calendar.date)
    (start_date end_date : string) (store : Store) :
  NoDup (map Expense.date (expenses store)) ->
  StronglySorted newest_first
    (snd (search_expenses strptime start_date end_date store))
  /\ snd (search_expenses strptime "" "" store) = list_expenses (-1) store.
Proof.
  intros Hnd. split.
  - unfold search_expenses.
    destruct (date_bound strptime start_date _ _) as [m1 from_start].
    destruct (date_bound strptime end_date _ _) as [m2 to_end]. cbn [snd].
    rewrite order_by_without_ties
      by (apply References.NoDup_map_filter; now apply References.NoDup_map_filter).
    apply ExpenseQueries.sorted_weaken with (R := Sql.before by_date_desc_id_desc).
    + intros x y. apply ExpenseQueries.by_date_desc_id_desc_iff.
    + apply order_by_sorted;
        [apply ExpenseQueries.by_date_desc_id_desc_total
        | apply ExpenseQueries.by_date_desc_id_desc_trans].
  - unfold search_expenses, date_bound, list_expenses, Sql.limit. cbn.
    assert (Hall : forall l : list Expense.t, filter (fun _ => true) l = l).
    { induction l as [|x l IH]; cbn; [reflexivity | now rewrite IH]. }
    rewrite !Hall. now apply order_by_without_ties.
Qed.

Lemma search_matches_list_without_ties_witness :
  NoDup (map Expense.date (expenses Sample.coffee_rent))
  /\ map Expense.id (snd (search_expenses Sample.strptime "" "" Sample.coffee_rent))
     = map Expense.id (list_expenses (-1) Sample.coffee_rent).
Proof.
  assert (H : NoDup (map Expense.date (expenses Sample.coffee_rent))).
  { cbn. constructor; [intros [H|[]]; discriminate H|].
    constructor; [intros []|constructor]. }
  split; [exact H|].
  now rewrite (proj2 (search_matches_list_without_ties Sample.strptime "" ""
                         Sample.coffee_rent H)).
Defined.

(** X11.  [search_expenses] returns, by date descending, exactly the
    expenses whose date lies within the bounds that parse, both ends
    included; an empty bound is no bound and prints nothing; a non-empty
    bound that does not parse is no bound either and prints its "Invalid
    ... date format" line, and nothing else is printed. *)
Theorem search_expenses_rows (strptime : string -> option Calendar.date)
    (start_date end_date : string) (store : Store) :
  (forall e, In e (snd (search_expenses strptime start_date end_date store))
             <-> In e (expenses store)
                 /\ in_search_range strptime start_date end_date e)
  /\ StronglySorted (fun e1 e2 => Expense.date e2 <= Expense.date e1)
       (snd (search_expenses strptime start_date end_date store))
  /\ (In InvalidStartDate (fst (search_expenses strptime start_date end_date store))
      <-> start_date <> ""%string /\ strptime start_date = None)
  /\ (In InvalidEndDate (fst (search_expenses strptime start_date end_date store))
      <-> end_date <> ""%string /\ strptime end_date = None)
  /\ incl (fst (search_expenses strptime start_date end_date store))
       [InvalidStartDate; InvalidEndDate].
Proof.
  split; [|split; [apply ExpenseQueries.search_expenses_by_date|]].
  - intros e. unfold search_expenses, date_bound, in_search_range, parse_date.
    destruct (String.eqb_spec start_date "") as [Hs|Hs];
      destruct (String.eqb_spec end_date "") as [He|He];
      [| destruct (strptime end_date) as [ed|]
       | destruct (strptime start_date) as [sd|]
       | destruct (strptime start_date) as [sd|];
         destruct (strptime end_date) as [ed|]];
      cbn [snd]; rewrite order_by_In, !filter_In, ?Z.leb_le;
      (split; [intros Hin; repeat split; try tauto; intros d Hd;
               try discriminate Hd; injection Hd as <-; tauto
              | intros [Hin [H1 H2]]; repeat split; trivial;
                try (apply H1; reflexivity); try (apply H2; reflexivity)]).
  - unfold search_expenses, date_bound, parse_date.
    destruct (String.eqb_spec start_date "") as [Hs|Hs];
      destruct (String.eqb_spec end_date "") as [He|He];
      [| destruct (strptime end_date) as [ed|]
       | destruct (strptime start_date) as [sd|]
       | destruct (strptime start_date) as [sd|];
         destruct (strptime end_date) as [ed|]];
      cbn [fst app];
      (split; [|split]);
      try (intros x Hx; cbn in *; tauto);
      (split;
       [ intros Hin; cbn in Hin;
         repeat match goal with
                | H : _ \/ _ |- _ => destruct H
                | H : False |- _ => destruct H
                end; try discriminate; now split
       | intros [Hne Hnone]; try contradiction; try discriminate Hnone;
         cbn; tauto ]).
Qed.

End Listing.

(** ** Setting a budget and reading it back *)

Module BudgetFlow.

Import Writes SqlFacts AmountFacts.
Local Open Scope Q_scope.

(** After an accepted [set_budget], the row found for the month carries
    the new limit. *)
Lemma set_budget_lookup today limit month store :
  exists b,
    find (fun x => (Budget.month x =? month_or_current today month)%string)
      (budgets (snd (set_budget today true limit month store))) = Some b
    /\ Budget.limit b = limit.
Proof.
  rewrite set_budget_eq. cbn [snd].
  set (m := month_or_current today month).
  destruct (find (fun b => (Budget.month b =? m)%string) (budgets store))
    as [b|] eqn:Hfind.
  - exists (Budget.with_limit limit b). split; [|reflexivity].
    cbn [budgets update_budget_limit]. rewrite Budgets.find_map_same.
    + rewrite Hfind. cbn. now rewrite Z.eqb_refl.
    + intros x. now destruct (Budget.id x =? Budget.id b)%Z.
  - exists (Budget.mk (Sql.next_id (map Budget.id (budgets store))) m limit).
    split; [|reflexivity].
    cbn [budgets insert_budget]. rewrite (find_app_None _ _ _ _ Hfind).
    cbn [find Budget.month]. now rewrite String.eqb_refl.
Qed.

(** X12.  A budget that was just set for the current month (the month
    argument empty or the current month itself, the commit accepted, the
    limit positive) is the one [budget_status] reports: same limit, the
    month's spending unchanged by the call, percent = spent / limit * 100. *)
Theorem set_budget_then_status (today : Calendar.date) (limit : Q)
    (month : string) (store : Store) :
  month_or_current today month = Calendar.get_current_month today ->
  0 < limit ->
  exists text color,
    budget_status today (snd (set_budget today true limit month store))
    = Status (Calendar.get_current_month today) limit
        (spent_in_month (Calendar.get_current_month today) store)
        (spent_in_month (Calendar.get_current_month today) store / limit * 100)
        text color.
Proof.
  intros Hmonth Hlimit.
  destruct (set_budget_lookup today limit month store) as (b & Hfind & Hb).
  rewrite Hmonth in Hfind. unfold budget_status. rewrite Hfind, Hb.
  apply Qltb_lt in Hlimit. rewrite Hlimit.
  assert (Hspent : forall m,
            spent_in_month m (snd (set_budget today true limit month store))
            = spent_in_month m store).
  { intros m. rewrite set_budget_eq. cbn [snd].
    destruct (find _ (budgets store)); reflexivity. }
  rewrite Hspent. eauto.
Qed.

Lemma set_budget_then_status_witness :
  month_or_current Sample.today "" = Calendar.get_current_month Sample.today
  /\ 0 < 5000
  /\ exists text color,
       budget_status Sample.today
         (snd (set_budget Sample.today true 5000 "" Sample.coffee_rent))
       = Status "2024-01" 5000 10150 (10150 / 5000 * 100) text color.
Proof.
  split; [reflexivity|]. split; [reflexivity|].
  exact (set_budget_then_status Sample.today 5000 "" Sample.coffee_rent
           eq_refl eq_refl).
Defined.

Lemma find_map_fixed A (p : A -> bool) (g : A -> A) l :
  (forall x, p (g x) = p x) -> (forall x, p x = true -> g x = x) ->
  find p (map g l) = find p l.
Proof.
  intros Hp Hg. induction l as [|x l IH]; cbn; [reflexivity|].
  rewrite Hp. destruct (p x) eqn:Hx; [now rewrite Hg | exact IH].
Qed.

(** X13.  [set_budget] touches the budget of its own month only: on a
    budget table with distinct ids, the row found for any other month is
    the same before and after the call, and the categories, expenses and
    subscriptions are left alone. *)
Theorem set_budget_other_months (today : Calendar.date) (ok : bool) (limit : Q)
    (month other : string) (store : Store) :
  budgets_consistent store ->
  other <> month_or_current today month ->
  find (fun x => (Budget.month x =? other)%string)
    (budgets (snd (set_budget today ok limit month store)))
  = find (fun x => (Budget.month x =? other)%string) (budgets store)
  /\ categories (snd (set_budget today ok limit month store)) = categories store
  /\ expenses (snd (set_budget today ok limit month store)) = expenses store
  /\ subscriptions (snd (set_budget today ok limit month store))
     = subscriptions store.
Proof.
  intros Hc Hother. rewrite set_budget_eq. destruct ok; [|now repeat split].
  cbn [snd].
  destruct (find (fun b => (Budget.month b =? month_or_current today month)%string)
              (budgets store)) as [b|] eqn:Hfind.
  - split; [|now repeat split].
    rewrite (Budgets.update_by_month _ _ _ _ Hc Hfind).
    apply find_map_fixed.
    + intros x. now destruct (Budget.month x =? month_or_current today month)%string.
    + intros x Hx. apply String.eqb_eq in Hx.
      destruct (String.eqb_spec (Budget.month x) (month_or_current today month));
        [congruence | reflexivity].
  - split; [|now repeat split].
    cbn [budgets insert_budget].
    destruct (find (fun x => (Budget.month x =? other)%string) (budgets store))
      as [y|] eqn:Hy.
    + now apply find_app_Some.
    + rewrite (find_app_None _ _ _ _ Hy). cbn.
      destruct (String.eqb_spec (month_or_current today month) other);
        [congruence | reflexivity].
Qed.

Lemma set_budget_other_months_witness :
  budgets_consistent Sample.budgeted
  /\ "2024-02"%string <> month_or_current Sample.today "2024-01"
  /\ find (fun x => (Budget.month x =? "2024-01")%string)
       (budgets (snd (set_budget Sample.today true 900 "2024-02" Sample.budgeted)))
     = Some (Budget.mk 1 "2024-01" 5000).
Proof.
  assert (Hc : budgets_consistent Sample.budgeted).
  { split; cbn; (constructor; [intros []|constructor]). }
  split; [exact Hc|]. split; [discriminate|].
  destruct (set_budget_other_months Sample.today true 900 "2024-02" "2024-01"
              Sample.budgeted Hc) as (Hfind & _).
  - discriminate.
  - rewrite Hfind. reflexivity.
Defined.

(** X14.  The division guard of line 223: when the budget of the current
    month has a limit that is zero or negative, [budget_status] divides
    nothing, reports 0 percent and the band GOOD in green, however much
    was spent. *)
Theorem budget_status_nonpositive_limit (today : Calendar.date) (store : Store)
    (budget : Budget.t) :
  find (fun b => (Budget.month b =? Calendar.get_current_month today)%string)
    (budgets store) = Some budget ->
  Budget.limit budget <= 0 ->
  budget_status today store
  = Status (Calendar.get_current_month today) (Budget.limit budget)
      (spent_in_month (Calendar.get_current_month today) store) 0 "GOOD" green.
Proof.
  intros Hfind Hlimit. unfold budget_status. rewrite Hfind.
  apply Qltb_ge in Hlimit. rewrite Hlimit. reflexivity.
Qed.

Lemma budget_status_nonpositive_limit_witness :
  find (fun b => (Budget.month b =? Calendar.get_current_month Sample.today)%string)
    (budgets (snd (set_budget Sample.today true 0 "" Sample.coffee_rent)))
  = Some (Budget.mk 1 "2024-01" 0)
  /\ Budget.limit (Budget.mk 1 "2024-01" 0) <= 0
  /\ budget_status Sample.today (snd (set_budget Sample.today true 0 "" Sample.coffee_rent))
     = Status "2024-01" 0 10150 0 "GOOD" green.
Proof.
  split; [reflexivity|]. split; [discriminate|].
  exact (budget_status_nonpositive_limit Sample.today
           (snd (set_budget Sample.today true 0 "" Sample.coffee_rent))
           (Budget.mk 1 "2024-01" 0) eq_refl ltac:(discriminate)).
Defined.

(** X15.  Whatever [budget_status] reports, the colour goes with the band
    (GOOD green, CAUTION yellow, OVER BUDGET! red), the month is the
    current one, the spent figure is that month's sum, and without a
    budget row for the current month the report is "No budget set". *)
Theorem budget_status_report (today : Calendar.date) (store : Store) :
  match budget_status today store with
  | NoBudget month =>
      month = Calendar.get_current_month today
      /\ ~ In month (map Budget.month (budgets store))
  | Status month limit spent percent text color =>
      month = Calendar.get_current_month today
      /\ In month (map Budget.month (budgets store))
      /\ spent = spent_in_month month store
      /\ ((text = "GOOD"%string /\ color = green)
          \/ (text = "CAUTION"%string /\ color = yellow)
          \/ (text = "OVER BUDGET!"%string /\ color = red))
  end.
Proof.
  unfold budget_status.
  destruct (find _ (budgets store)) as [b|] eqn:Hfind.
  - apply find_some in Hfind as [Hin Hm]. apply String.eqb_eq in Hm.
    split; [reflexivity|]. split; [rewrite <- Hm; now apply in_map|].
    split; [reflexivity|].
    destruct (Qltb _ 80); [tauto|]. destruct (Qltb _ 100); tauto.
  - split; [reflexivity|]. intros Hin. apply in_map_iff in Hin as [b [Hb Hin]].
    pose proof (find_none _ _ Hfind b Hin) as Hno. cbv beta in Hno.
    rewrite Hb, String.eqb_refl in Hno. discriminate.
Qed.

End BudgetFlow.

(** ** Adding a subscription and seeing it listed *)

Module SubscriptionFlow.

Import Writes SqlFacts.
Local Open Scope Z_scope.

(** X16.  A due date that is empty or does not parse stops
    [add_subscription] before it opens a session: "Invalid date" is
    printed and the store is exactly as before, whatever the name, the
    amount and the commit outcome would be. *)
Theorem add_subscription_invalid_date (strptime : string -> option Calendar.date)
    (ok : bool) (name : string) (amount : Q) (next_date_str : string)
    (store : Store) :
  next_date_str = ""%string \/ strptime next_date_str = None ->
  add_subscription strptime ok name amount next_date_str store
  = (Ok InvalidDate, store).
Proof.
  intros H. unfold add_subscription, parse_date.
  destruct (String.eqb_spec next_date_str "") as [_|Hne]; [reflexivity|].
  destruct H as [H|H]; [contradiction | now rewrite H].
Qed.

Lemma add_subscription_invalid_date_witness :
  (""%string = ""%string \/ Sample.strptime "" = None)
  /\ add_subscription Sample.strptime true "Netflix" 499 "" Sample.netflix
     = (Ok InvalidDate, Sample.netflix).
Proof.
  split; [left; reflexivity|].
  apply (add_subscription_invalid_date Sample.strptime true "Netflix" 499 ""
           Sample.netflix).
  left. reflexivity.
Defined.

(** X17.  A subscription added with a due date that parses (the commit
    accepted) is stored last, with the stripped name, the amount and that
    date.  For every [days] such that [today + days] is a calendar date,
    [list_upcoming_subscriptions] afterwards lists the rows it listed
    before and, exactly when the new due date is at most [today + days],
    the row of the new subscription with days_left = due date - today. *)
Theorem add_subscription_then_listed (strptime : string -> option Calendar.date)
    (name : string) (amount : Q) (next_date_str : string) (d : Calendar.date)
    (today : Calendar.date) (days : Z) (store : Store) :
  parse_date strptime next_date_str = Some d ->
  Z.abs days <= 999999999 ->
  1 <= today + days <= 3652059 ->
  exists s rows_before rows_after,
    subscriptions (snd (add_subscription strptime true name amount next_date_str store))
    = (subscriptions store ++ [s])%list
    /\ Subscription.name s = Text.strip name
    /\ Subscription.amount s = amount
    /\ Subscription.next_date s = d
    /\ list_upcoming_subscriptions today days store = Ok rows_before
    /\ list_upcoming_subscriptions today days
         (snd (add_subscription strptime true name amount next_date_str store))
       = Ok rows_after
    /\ forall r,
         In r rows_after
         <-> In r rows_before \/ (d <= today + days /\ r = upcoming today s).
Proof.
  intros Hparse Hdays Hsum. rewrite add_subscription_eq, Hparse. cbn [snd].
  unfold list_upcoming_subscriptions.
  rewrite (Subscriptions.date_add_in_range _ _ Hdays Hsum).
  eexists. eexists. eexists.
  split; [reflexivity|]. split; [reflexivity|]. split; [reflexivity|].
  split; [reflexivity|]. split; [reflexivity|]. split; [reflexivity|].
  cbn [subscriptions insert_subscription]. intros r. split.
  - rewrite !in_map_iff. intros (s & <- & Hs).
    apply order_by_In in Hs. rewrite filter_app in Hs.
    apply in_app_or in Hs as [Hs|Hs].
    + left. exists s. split; [reflexivity|]. now apply order_by_In.
    + right. cbn [filter Subscription.next_date] in Hs.
      destruct (Z.leb_spec d (today + days)) as [Hd|_]; [|destruct Hs].
      destruct Hs as [<-|[]]. now split.
  - rewrite !in_map_iff. intros [(s & <- & Hs)|[Hd ->]].
    + exists s. split; [reflexivity|]. apply order_by_In. apply order_by_In in Hs.
      rewrite filter_app. apply in_or_app. now left.
    + eexists. split; [reflexivity|]. apply order_by_In.
      rewrite filter_app. apply in_or_app. right.
      cbn [filter Subscription.next_date].
      destruct (Z.leb_spec d (today + days)) as [_|H]; [now left | lia].
Qed.

Lemma add_subscription_then_listed_witness :
  parse_date Sample.strptime "2024-02-10" = Some 738926
  /\ Z.abs 30 <= 999999999
  /\ 1 <= Sample.today + 30 <= 3652059
  /\ exists s rows,
       Subscription.name s = "Gym"%string
       /\ Subscription.next_date s = 738926
       /\ list_upcoming_subscriptions Sample.today 30
            (snd (add_subscription Sample.strptime true " Gym " 900 "2024-02-10"
                    Sample.netflix)) = Ok rows
       /\ In (upcoming Sample.today s) rows.
Proof.
  split; [reflexivity|]. split; [cbn; lia|]. split; [unfold Sample.today; lia|].
  destruct (add_subscription_then_listed Sample.strptime " Gym " 900 "2024-02-10"
              738926 Sample.today 30 Sample.netflix eq_refl)
    as (s & before & after & _ & Hname & _ & Hdate & _ & Hafter & Hlisted);
    [cbn; lia | unfold Sample.today; lia |].
  exists s, after. split; [exact Hname|]. split; [exact Hdate|].
  split; [exact Hafter|].
  apply Hlisted. right. split; [vm_compute; discriminate | reflexivity].
Defined.

(** X18.  A longer horizon only adds rows: when [today + days1] and
    [today + days2] are calendar dates and days1 <= days2, every row
    listed for [days1] is listed for [days2]; and a subscription that is
    overdue or due today is listed for such a horizon [days1 >= 0]. *)
Theorem upcoming_monotone (today : Calendar.date) (days1 days2 : Z)
    (store : Store) :
  days1 <= days2 ->
  Z.abs days1 <= 999999999 -> 1 <= today + days1 <= 3652059 ->
  Z.abs days2 <= 999999999 -> 1 <= today + days2 <= 3652059 ->
  exists rows1 rows2,
    list_upcoming_subscriptions today days1 store = Ok rows1
    /\ list_upcoming_subscriptions today days2 store = Ok rows2
    /\ incl rows1 rows2
    /\ (0 <= days1 ->
        forall s, In s (subscriptions store) ->
                  Subscription.next_date s <= today ->
                  In (upcoming today s) rows1).
Proof.
  intros Hdays Ha1 Hs1 Ha2 Hs2. unfold list_upcoming_subscriptions.
  rewrite (Subscriptions.date_add_in_range _ _ Ha1 Hs1).
  rewrite (Subscriptions.date_add_in_range _ _ Ha2 Hs2).
  eexists. eexists. split; [reflexivity|]. split; [reflexivity|]. split.
  - intros r. rewrite !in_map_iff. intros (s & <- & Hs).
    exists s. split; [reflexivity|]. apply order_by_In. apply order_by_In in Hs.
    rewrite filter_In in *. rewrite Z.leb_le in *. split; [tauto | lia].
  - intros H0 s Hs Hdue. apply in_map. apply order_by_In.
    apply filter_In. split; [exact Hs | apply Z.leb_le; lia].
Qed.

Lemma upcoming_monotone_witness :
  7 <= 30
  /\ Z.abs 7 <= 999999999 /\ 1 <= Sample.today + 7 <= 3652059
  /\ Z.abs 30 <= 999999999 /\ 1 <= Sample.today + 30 <= 3652059
  /\ exists rows1 rows2,
       list_upcoming_subscriptions Sample.today 7 Sample.netflix = Ok rows1
       /\ list_upcoming_subscriptions Sample.today 30 Sample.netflix = Ok rows2
       /\ incl rows1 rows2.
Proof.
  split; [lia|]. split; [cbn; lia|]. split; [unfold Sample.today; lia|].
  split; [cbn; lia|]. split; [unfold Sample.today; lia|].
  destruct (upcoming_monotone Sample.today 7 30 Sample.netflix)
    as (rows1 & rows2 & H1 & H2 & Hincl & _);
    [lia | cbn; lia | unfold Sample.today; lia | cbn; lia | unfold Sample.today; lia |].
  exists rows1, rows2. auto.
Defined.

End SubscriptionFlow.

(** ** What the menu keeps true of the whole store *)

Module MenuInvariants.

Import Writes SqlFacts AmountFacts.
Local Open Scope Q_scope.

Lemma Qle_bool_false_pos a : Qle_bool a 0 = false -> 0 < a.
Proof. intros H. apply Qltb_lt. unfold Qltb. now rewrite H. Qed.

Lemma add_expense_valid strptime today ok_cat ok_exp title amount category_name
    exp_date store :
  Text.strip title <> ""%string -> 0 < amount ->
  Text.normalize category_name <> ""%string ->
  menu_data_valid store ->
  menu_data_valid
    (snd (add_expense strptime today ok_cat ok_exp title amount category_name
            exp_date store)).
Proof.
  intros Htitle Hamount Hname (Hcats & Hexps & Hbuds & Hsubs).
  rewrite add_expense_eq.
  assert (Hcats' : Forall (fun c => Category.name c <> ""%string)
                     (categories store ++ [new_category category_name store])).
  { apply Forall_app. split; [exact Hcats|]. constructor; [exact Hname | constructor]. }
  assert (Hexps' : forall cat,
             Forall (fun e => Expense.title e <> ""%string /\ 0 < Expense.amount e)
               (expenses store
                ++ [new_expense strptime today title amount exp_date cat store])).
  { intros cat. apply Forall_app. split; [exact Hexps|].
    constructor; [|constructor]. now split. }
  destruct (category_by_name (Text.normalize category_name) store) as [cat|];
    [destruct ok_exp | cbv zeta; destruct ok_cat, ok_exp];
    unfold menu_data_valid; cbn [snd categories expenses budgets subscriptions
                                  insert_expense insert_category]; auto.
Qed.

(** X19.  Every store that the menu can build from the empty database
    holds only data that passed the menu's checks and satisfies the
    integrity conditions: no category, expense title or subscription name
    is empty, every amount and every budget limit is positive, ids are
    distinct in the category and expense tables, category names are
    distinct and in normal form, each month has at most one budget, and
    every expense points at an existing category. *)
Theorem reachable_store_valid (strptime : string -> option Calendar.date)
    (float_of_string : string -> option Q) (int_of_string : string -> option Z)
    (store : Store) :
  reachable strptime float_of_string int_of_string store ->
  menu_data_valid store
  /\ categories_consistent store
  /\ references_consistent store
  /\ budgets_consistent store.
Proof.
  induction 1 as [| store today ok_cat ok_exp title_in amount_in category_in date_in _ IH
                  | store ok id_in _ IH
                  | store today ok limit_in _ IH
                  | store ok name_in amount_in date_in _ IH].
  - repeat split; constructor.
  - unfold menu_add_expense.
    destruct (String.eqb_spec (Text.strip title_in) "") as [_|Htitle]; [exact IH|].
    destruct (float_of_string amount_in) as [amount|]; [|exact IH].
    destruct (Qle_bool amount 0) eqn:Hle; [exact IH|].
    destruct (String.eqb_spec (Text.strip category_in) "") as [_|Hcat]; [exact IH|].
    destruct IH as (Hvalid & Hcats & Hrefs & Hbuds).
    split; [|split; [|split]].
    + apply add_expense_valid; trivial.
      * now rewrite NormalForm.strip_idempotent.
      * now apply Qle_bool_false_pos.
      * now apply NormalForm.normalize_strip_nonempty.
    + exact (CategoryInvariants.apply_action_categories_consistent strptime
               (AddExpense today ok_cat ok_exp (Text.strip title_in) amount
                  (Text.strip category_in) (Text.strip date_in)) store Hcats).
    + now apply References.add_expense_references.
    + exact (Budgets.apply_action_budgets strptime
               (AddExpense today ok_cat ok_exp (Text.strip title_in) amount
                  (Text.strip category_in) (Text.strip date_in)) store Hbuds).
  - unfold menu_delete_expense.
    destruct (int_of_string id_in) as [eid|]; [|exact IH].
    destruct IH as (Hvalid & Hcats & Hrefs & Hbuds).
    split; [|split; [|split]].
    + rewrite delete_expense_eq.
      destruct (find _ (expenses store)) as [exp|]; [|exact Hvalid].
      destruct (find _ (categories store)) as [cat|]; [|exact Hvalid].
      destruct ok; [|exact Hvalid].
      destruct Hvalid as (Hc & He & Hb & Hs). repeat split; trivial.
      cbn. apply Forall_forall. intros e Hin. apply filter_In in Hin as [Hin _].
      rewrite Forall_forall in He. now apply He.
    + exact (CategoryInvariants.apply_action_categories_consistent strptime
               (DeleteExpense ok eid) store Hcats).
    + now apply References.delete_expense_references.
    + exact (Budgets.apply_action_budgets strptime (DeleteExpense ok eid) store Hbuds).
  - unfold menu_set_budget.
    destruct (float_of_string limit_in) as [limit|]; [|exact IH].
    destruct (Qle_bool limit 0) eqn:Hle; [exact IH|].
    destruct IH as (Hvalid & Hcats & Hrefs & Hbuds).
    split; [|split; [|split]].
    + rewrite set_budget_eq. destruct ok; [|exact Hvalid]. cbn [snd].
      destruct Hvalid as (Hc & He & Hb & Hs).
      destruct (find _ (budgets store)) as [b|]; repeat split; trivial; cbn.
      * apply Forall_forall. intros x Hx. apply in_map_iff in Hx as [y [<- Hy]].
        rewrite Forall_forall in Hb.
        destruct (Budget.id y =? Budget.id b)%Z;
          [now apply Qle_bool_false_pos | now apply Hb].
      * apply Forall_app. split; [exact Hb|].
        constructor; [now apply Qle_bool_false_pos | constructor].
    + exact (CategoryInvariants.apply_action_categories_consistent strptime
               (SetBudget today ok limit "") store Hcats).
    + exact (References.apply_action_references strptime
               (SetBudget today ok limit "") store Hrefs).
    + now apply Budgets.set_budget_consistent.
  - unfold menu_add_subscription.
    destruct (String.eqb_spec (Text.strip name_in) "") as [_|Hname]; [exact IH|].
    destruct (float_of_string amount_in) as [amount|]; [|exact IH].
    destruct (Qle_bool amount 0) eqn:Hle; [exact IH|].
    destruct IH as (Hvalid & Hcats & Hrefs & Hbuds).
    split; [|split; [|split]].
    + rewrite add_subscription_eq.
      destruct (parse_date strptime (Text.strip date_in)) as [d|]; [|exact Hvalid].
      destruct ok; [|exact Hvalid].
      destruct Hvalid as (Hc & He & Hb & Hs). repeat split; trivial. cbn.
      apply Forall_app. split; [exact Hs|]. constructor; [|constructor].
      cbn. split; [now rewrite NormalForm.strip_idempotent
                  | now apply Qle_bool_false_pos].
    + exact (CategoryInvariants.apply_action_categories_consistent strptime
               (AddSubscription ok (Text.strip name_in) amount (Text.strip date_in))
               store Hcats).
    + exact (References.apply_action_references strptime
               (AddSubscription ok (Text.strip name_in) amount (Text.strip date_in))
               store Hrefs).
    + exact (Budgets.apply_action_budgets strptime
               (AddSubscription ok (Text.strip name_in) amount (Text.strip date_in))
               store Hbuds).
Qed.

Lemma reachable_store_valid_witness :
  reachable Sample.strptime Sample.float_of_string Sample.int_of_string
    (snd (menu_add_expense Sample.strptime Sample.float_of_string Sample.today
            true true " Coffee " "150" " Food " "2024-01-05" empty_store))
  /\ menu_data_valid
       (snd (menu_add_expense Sample.strptime Sample.float_of_string Sample.today
               true true " Coffee " "150" " Food " "2024-01-05" empty_store)).
Proof.
  assert (H : reachable Sample.strptime Sample.float_of_string Sample.int_of_string
                (snd (menu_add_expense Sample.strptime Sample.float_of_string
                        Sample.today true true " Coffee " "150" " Food "
                        "2024-01-05" empty_store))).
  { apply reach_add_expense. apply reach_empty. }
  split; [exact H|].
  exact (proj1 (reachable_store_valid _ _ _ _ H)).
Defined.

End MenuInvariants.

(** ** When the category report has nothing to print *)

Module ReportEdge.

Import SqlFacts AmountFacts CategoryReport.
Local Open Scope Q_scope.

Lemma sum_zero_all_zero (l : list Q) :
  Forall (fun x => 0 <= x) l -> Sql.sum l == 0 -> Forall (fun x => x == 0) l.
Proof.
  unfold Sql.sum. induction 1 as [|x l Hx Hl IH]; cbn [fold_right]; intros Hsum;
    [constructor|].
  pose proof (sum_nonneg l Hl) as Hrest. unfold Sql.sum in Hrest.
  constructor; [lra | apply IH; lra].
Qed.

(** X20.  On a store that satisfies the data model, [category_report]
    prints "No spending" exactly when nothing was spent in the month: the
    report is absent if and only if the sum of the month's expense amounts
    is zero, and a report that is printed has at least one row and a
    positive total. *)
Theorem category_report_no_spending (today : Calendar.date) (month : string)
    (store : Store) :
  expenses_consistent store ->
  (category_report today month store = None
   <-> spent_in_month (month_or_current today month) store == 0)
  /\ forall rows total,
       category_report today month store = Some (rows, total) ->
       rows <> [] /\ 0 < total.
Proof.
  intros Hc. unfold category_report. fold (month_or_current today month).
  set (m := month_or_current today month).
  pose proof (category_totals_nonneg m store Hc) as Hnonneg.
  pose proof (category_totals_sum m store Hc) as Hsum.
  destruct (forallb _ (category_totals m store)) eqn:Hzero.
  - split; [|discriminate]. split; [|reflexivity]. intros _.
    rewrite <- Hsum.
    rewrite (sum_map_ext _ snd (fun _ => 0)); [apply sum_map_zero|].
    intros r Hr. rewrite forallb_forall in Hzero. now apply Qeq_bool_eq, Hzero.
  - assert (Hpos : ~ spent_in_month m store == 0).
    { intros Hspent. rewrite <- Hsum in Hspent.
      assert (Hall : Forall (fun x => x == 0) (map snd (category_totals m store))).
      { apply sum_zero_all_zero; [|exact Hspent].
        apply Forall_forall. intros x Hx. apply in_map_iff in Hx as [r [<- Hr]].
        rewrite Forall_forall in Hnonneg. now apply Hnonneg. }
      assert (Htrue : forallb (fun r => Qeq_bool (snd r) 0) (category_totals m store)
                      = true).
      { apply forallb_forall. intros r Hr. apply Qeq_eq_bool.
        rewrite Forall_forall in Hall. apply Hall. now apply in_map. }
      congruence. }
    split; [split; [discriminate | intros H; contradiction]|].
    intros rows total Heq. injection Heq as <- <-.
    assert (Htotal : fold_left (fun total r => total + snd r)
                       (filter (fun r => Qltb 0 (snd r)) (category_totals m store)) 0
                     == spent_in_month m store).
    { rewrite (fold_left_total _ snd), positive_rows_sum by exact Hnonneg.
      rewrite Hsum. lra. }
    assert (Hspent : 0 <= spent_in_month m store).
    { rewrite <- Hsum. apply sum_nonneg. apply Forall_forall. intros x Hx.
      apply in_map_iff in Hx as [r [<- Hr]].
      rewrite Forall_forall in Hnonneg. now apply Hnonneg. }
    split.
    + intros Hnil. rewrite Hnil in Htotal. cbn in Htotal. apply Hpos.
      rewrite <- Htotal. reflexivity.
    + rewrite Htotal. destruct (Qlt_le_dec 0 (spent_in_month m store)) as [H|H];
        [exact H|]. exfalso. apply Hpos. lra.
Qed.

Lemma category_report_no_spending_witness :
  expenses_consistent Sample.coffee_rent
  /\ category_report Sample.today "2024-02" Sample.coffee_rent = None
  /\ spent_in_month "2024-02" Sample.coffee_rent == 0.
Proof.
  split; [exact coffee_rent_consistent|]. split; [reflexivity|].
  apply (proj1 (category_report_no_spending Sample.today "2024-02" Sample.coffee_rent
                  coffee_rent_consistent)).
  reflexivity.
Defined.

End ReportEdge.

(** ** What a successful [add_expense] leaves behind *)

Module AddExpenseRow.

Import Writes SqlFacts.
Local Open Scope Z_scope.


End AddExpenseRow.

(** ** The checks of the other menu entries *)

Module MenuChecks.

Local Open Scope Q_scope.

(** X22.  The menu entries for deleting an expense, setting the budget and
    adding a subscription write nothing when their input fails the check:
    an id that is not an integer, a limit or amount that is not a number or
    is not positive, a blank subscription name.  Each prints its own
    message and leaves the store as it was, whatever the commit outcome
    would be. *)
Theorem menu_rejects_bad_input (strptime : string -> option Calendar.date)
    (float_of_string : string -> option Q) (int_of_string : string -> option Z)
    (today : Calendar.date) (ok : bool) (store : Store) :
  (forall id_in,
     int_of_string id_in = None ->
     menu_delete_expense int_of_string ok id_in store = (Ok InvalidNumber, store))
  /\ (forall limit_in,
        float_of_string limit_in = None
        \/ (exists limit, float_of_string limit_in = Some limit /\ limit <= 0) ->
        menu_set_budget float_of_string today ok limit_in store
        = (Ok InvalidPositiveNumber, store))
  /\ (forall name_in amount_in date_in,
        Text.strip name_in = ""%string ->
        menu_add_subscription strptime float_of_string ok name_in amount_in
          date_in store = (Ok NameRequired, store))
  /\ (forall name_in amount_in date_in,
        Text.strip name_in <> ""%string ->
        float_of_string amount_in = None
        \/ (exists amount, float_of_string amount_in = Some amount /\ amount <= 0) ->
        menu_add_subscription strptime float_of_string ok name_in amount_in
          date_in store = (Ok InvalidSubscriptionAmount, store)).
Proof.
  split; [|split; [|split]].
  - intros id_in H. unfold menu_delete_expense. now rewrite H.
  - intros limit_in [H|(limit & H & Hle)]; unfold menu_set_budget; rewrite H;
      [reflexivity|]. apply Qle_bool_iff in Hle. now rewrite Hle.
  - intros name_in amount_in date_in H. unfold menu_add_subscription.
    now rewrite H.
  - intros name_in amount_in date_in Hname Hamount. unfold menu_add_subscription.
    destruct (String.eqb_spec (Text.strip name_in) "") as [He|_]; [contradiction|].
    destruct Hamount as [H|(amount & H & Hle)]; rewrite H; [reflexivity|].
    apply Qle_bool_iff in Hle. now rewrite Hle.
Qed.

End MenuChecks.
